(** * Hostel-Inventory front end: controllers, pages and their properties

    A shallow embedding of the React hooks and pages of the repository
    ([useRooms], [useAssets], [useDamageTracking], [Dashboard], [Profile],
    [UserManagement], [ForgotPassword]) together with the axios wrapper
    they call.

    Every [async] handler is split where the source has its [await]: the
    synchronous prefix returns the new component state, the effects it
    performed and the requests it left in flight; each request carries the
    continuation that runs when the promise settles.  All state writes the
    source performs after an [await] are constant [setX(v)] calls, so a
    continuation is a function of the settled outcome and of the state at
    that moment. *)

From Stdlib Require Import ZArith List String Ascii Bool Lia.
Import ListNotations.
Open Scope string_scope.
Open Scope list_scope.

Set Implicit Arguments.
Set Warnings "-register-all".


(** ** JavaScript values *)

(** Wire data and component state are dynamically typed in the source.
    Numbers are the integers the API uses for ids, quantities and HTTP
    status codes. *)
Inductive JsVal : Type :=
| JUndefined
| JNull
| JBool (b : bool)
| JNum (n : Z)
| JStr (s : string)
| JArr (items : list JsVal)
| JObj (fields : list (string * JsVal)).

(** [Array.isArray(v)] *)
Definition isArray (v : JsVal) : bool :=
  match v with JArr _ => true | _ => false end.

(** Truthiness, as used by [if (v)], [!v] and [a || b]. *)
Definition truthy (v : JsVal) : bool :=
  match v with
  | JUndefined | JNull => false
  | JBool b => b
  | JNum n => negb (n =? 0)%Z
  | JStr s => negb (s =? "")
  | JArr _ | JObj _ => true
  end.

(** [a || b] *)
Definition orElse (a b : JsVal) : JsVal := if truthy a then a else b.

Fixpoint getField (k : string) (fs : list (string * JsVal)) : JsVal :=
  match fs with
  | [] => JUndefined
  | (k', v) :: rest => if k =? k' then v else getField k rest
  end.

(** [{...obj, [k]: v}] on the field list: an existing key keeps its place. *)
Fixpoint setField (k : string) (v : JsVal) (fs : list (string * JsVal))
  : list (string * JsVal) :=
  match fs with
  | [] => [(k, v)]
  | (k', v') :: rest =>
      if k =? k' then (k, v) :: rest else (k', v') :: setField k v rest
  end.

(** [v.k]: [None] stands for the [TypeError] thrown on [undefined]/[null].
    The keys read by the source ([id], [role], [error], ...) exist on no
    primitive or array prototype, so those receivers give [undefined]. *)
Definition prop (v : JsVal) (k : string) : option JsVal :=
  match v with
  | JUndefined | JNull => None
  | JObj fs => Some (getField k fs)
  | _ => Some JUndefined
  end.

(** [v?.k] *)
Definition optProp (v : JsVal) (k : string) : JsVal :=
  match prop v k with Some x => x | None => JUndefined end.

(** [a === b].  Objects and arrays compare by reference; values parsed from
    different responses are never the same reference. *)
Definition strictEq (a b : JsVal) : bool :=
  match a, b with
  | JUndefined, JUndefined => true
  | JNull, JNull => true
  | JBool x, JBool y => Bool.eqb x y
  | JNum x, JNum y => (x =? y)%Z
  | JStr x, JStr y => (x =? y)
  | _, _ => false
  end.

(** ** The transport wrapper (services/api.js) *)

(** One constructor per exported function, with its arguments. *)
Inductive Call : Type :=
| register (userData : JsVal)
| login (credentials : JsVal)
| logout
| getCurrentUser
| updateProfile (profileData : JsVal)
| createUser (userData : JsVal)
| listUsers
| updateUser (userId : JsVal) (userData : JsVal)
| deleteUser (userId : JsVal)
| getAssets
| createAsset (assetData : JsVal)
| updateAsset (id : JsVal) (assetData : JsVal)
| deleteAsset (id : JsVal)
| getRooms
| createRoom (roomData : JsVal)
| updateRoom (id : JsVal) (roomData : JsVal)
| deleteRoom (id : JsVal)
| getDashboardSummary
| getDamageReports
| createDamageReport (reportData : JsVal)
| updateDamageReport (id : JsVal) (reportData : JsVal)
| deleteDamageReport (id : JsVal)
| requestPasswordReset (email : string)
| verifyResetCode (email code : string)
| resetPasswordWithCode (email code newPassword : string).

(** How an axios promise settles: with [response.data], or with an error
    whose [err.response] is [undefined] when no response arrived. *)
Inductive Outcome : Type :=
| Resolved (data : JsVal)
| Rejected (response : JsVal).

(** [err.response?.status === 401 || err.response?.status === 403] *)
Definition authFailure (response : JsVal) : bool :=
  strictEq (optProp response "status") (JNum 401)
  || strictEq (optProp response "status") (JNum 403).

(** [err.response?.data?.error] *)
Definition serverError (response : JsVal) : JsVal :=
  optProp (optProp response "data") "error".

(** ** Effects *)

(** A text shown to the user: a value, a literal prefix [+] a value, or a
    template literal with two interpolated values. *)
Inductive Msg : Type :=
| MVal (v : JsVal)
| MCat (prefix : string) (v : JsVal)
| MTemplate (s0 : string) (v1 : JsVal) (s1 : string) (v2 : JsVal) (s2 : string).

Inductive Effect : Type :=
| EPreventDefault
| EConfirm (question : Msg)
| EToast (m : Msg) (type : option string)
| ENavigate (path : string)
| ENavigateAfter (ms : Z) (path : string)
| EConsoleError (label : string)
| ERemoveItem (key : string).

(** A request in flight together with the rest of the handler. *)
Inductive Task (S : Type) : Type :=
| Await (c : Call) (k : Outcome -> S -> S * list Effect * list (Task S)).

Definition Reaction (S : Type) : Type := (S * list Effect * list (Task S))%type.

Definition callOf {S} (t : Task S) : Call :=
  match t with Await c _ => c end.

Definition settle {S} (t : Task S) : Outcome -> S -> Reaction S :=
  match t with Await _ k => k end.

Definition stateOf {S} (r : Reaction S) : S := fst (fst r).
Definition effectsOf {S} (r : Reaction S) : list Effect := snd (fst r).
Definition spawnedOf {S} (r : Reaction S) : list (Task S) := snd r.

(** The calls a reaction leaves in flight. *)
Definition requestsOf {S} (r : Reaction S) : list Call :=
  map callOf (spawnedOf r).

Definition isNavigate (path : string) (e : Effect) : bool :=
  match e with ENavigate p => p =? path | _ => false end.

Definition navigatesTo {S} (path : string) (r : Reaction S) : bool :=
  existsb (isNavigate path) (effectsOf r).

Definition isErrorToast (e : Effect) : bool :=
  match e with EToast _ (Some "error") => true | _ => false end.

(** [s.trim()] on strings of 8-bit code units: tab, line feed, vertical
    tab, form feed, carriage return, space and no-break space are removed
    from both ends. *)
Definition isSpace (c : ascii) : bool :=
  let n := nat_of_ascii c in
  ((9 <=? n) && (n <=? 13) || (n =? 32) || (n =? 160))%nat.

Fixpoint trimStart (s : string) : string :=
  match s with
  | EmptyString => EmptyString
  | String c rest => if isSpace c then trimStart rest else s
  end.

Fixpoint trimEnd (s : string) : string :=
  match s with
  | EmptyString => EmptyString
  | String c rest =>
      match trimEnd rest with
      | EmptyString => if isSpace c then EmptyString else String c EmptyString
      | kept => String c kept
      end
  end.

Definition trim (s : string) : string := trimEnd (trimStart s).

(** [setXs(Array.isArray(response.data) ? response.data : [])] *)
Definition arrayOrEmpty (data : JsVal) : JsVal :=
  if isArray data then data else JArr [].

(** ** useRooms *)

Module Rooms.

Record State : Type := mkState {
  rooms : JsVal;
  loading : bool;
  showForm : bool;
  editingRoom : JsVal;
  formData : JsVal
}.

Definition defaultForm : JsVal :=
  JObj [("room_number", JStr ""); ("hostel_name", JStr "");
        ("floor", JStr ""); ("capacity", JNum 2)].

Definition init : State :=
  mkState (JArr []) true false JNull defaultForm.

Definition setRooms v st :=
  mkState v (loading st) (showForm st) (editingRoom st) (formData st).
Definition setLoading b st :=
  mkState (rooms st) b (showForm st) (editingRoom st) (formData st).
Definition setShowForm b st :=
  mkState (rooms st) (loading st) b (editingRoom st) (formData st).
Definition setEditingRoom v st :=
  mkState (rooms st) (loading st) (showForm st) v (formData st).
Definition setFormData v st :=
  mkState (rooms st) (loading st) (showForm st) (editingRoom st) v.

Definition fetchRooms_k (o : Outcome) (st : State) : Reaction State :=
  match o with
  | Resolved data =>
      (setLoading false (setRooms (arrayOrEmpty data) st), [], [])
  | Rejected response =>
      (setLoading false (setRooms (JArr []) st),
       EConsoleError "Error fetching rooms:"
         :: (if authFailure response then [ENavigate "/signin"] else []),
       [])
  end.

Definition fetchRooms : Task State := Await getRooms fetchRooms_k.

(** [useEffect(() => { fetchRooms(); }, [])] *)
Definition mount : list (Task State) := [fetchRooms].

(** [handleChange(e)] with [e.target.name], [e.target.value] *)
Definition handleChange (name : string) (value : JsVal) (st : State)
  : Reaction State :=
  (setFormData
     (match formData st with
      | JObj fs => JObj (setField name value fs)
      | _ => JObj [(name, value)]
      end) st, [], []).

Definition handleSubmit_k (updating : bool) (o : Outcome) (st : State)
  : Reaction State :=
  match o with
  | Resolved _ =>
      (setFormData defaultForm (setEditingRoom JNull (setShowForm false st)),
       [EToast (MVal (JStr (if updating then "Room updated successfully!"
                            else "Room created successfully!")))
               (Some "success")],
       [fetchRooms])
  | Rejected response =>
      (st,
       [EToast (MCat "Error saving room: "
                  (orElse (serverError response) (JStr "Unknown error")))
               (Some "error")],
       [])
  end.

Definition handleSubmit (st : State) : Reaction State :=
  (st, [EPreventDefault],
   [if truthy (editingRoom st)
    then Await (updateRoom (optProp (editingRoom st) "id") (formData st))
               (handleSubmit_k true)
    else Await (createRoom (formData st)) (handleSubmit_k false)]).

Definition handleEdit (room : JsVal) (st : State) : Reaction State :=
  match prop room "room_number", prop room "hostel_name",
        prop room "floor", prop room "capacity" with
  | Some rn, Some hn, Some fl, Some cap =>
      (setShowForm true
         (setFormData
            (JObj [("room_number", rn); ("hostel_name", hn);
                   ("floor", orElse fl (JStr "")); ("capacity", cap)])
            (setEditingRoom room st)), [], [])
  | _, _, _, _ => (setEditingRoom room st, [], [])
  end.

Definition handleDelete_k (o : Outcome) (st : State) : Reaction State :=
  match o with
  | Resolved _ =>
      (st, [EToast (MVal (JStr "Room deleted successfully!")) (Some "success")],
       [fetchRooms])
  | Rejected _ =>
      (st, [EToast (MVal (JStr "Error deleting room")) (Some "error")], [])
  end.

(** [confirmed] is what [window.confirm] returned. *)
Definition handleDelete (id : JsVal) (confirmed : bool) (st : State)
  : Reaction State :=
  (st, [EConfirm (MVal (JStr "Are you sure you want to delete this room?"))],
   if confirmed then [Await (deleteRoom id) handleDelete_k] else []).

Definition handleCancel (st : State) : Reaction State :=
  (setFormData defaultForm (setEditingRoom JNull (setShowForm false st)),
   [], []).

End Rooms.

(** ** useAssets *)

Module Assets.

Record State : Type := mkState {
  assets : JsVal;
  loading : bool;
  showForm : bool;
  editingAsset : JsVal;
  formData : JsVal
}.

Definition defaultForm : JsVal :=
  JObj [("name", JStr ""); ("asset_type", JStr "Bed");
        ("total_quantity", JNum 1); ("condition", JStr "Good")].

Definition init : State :=
  mkState (JArr []) true false JNull defaultForm.

Definition setAssets v st :=
  mkState v (loading st) (showForm st) (editingAsset st) (formData st).
Definition setLoading b st :=
  mkState (assets st) b (showForm st) (editingAsset st) (formData st).
Definition setShowForm b st :=
  mkState (assets st) (loading st) b (editingAsset st) (formData st).
Definition setEditingAsset v st :=
  mkState (assets st) (loading st) (showForm st) v (formData st).
Definition setFormData v st :=
  mkState (assets st) (loading st) (showForm st) (editingAsset st) v.

(** [withToast] tells whether the caller passed [showToast]. *)
Definition fetchAssets_k (withToast : bool) (o : Outcome) (st : State)
  : Reaction State :=
  match o with
  | Resolved data =>
      (setLoading false (setAssets (arrayOrEmpty data) st), [], [])
  | Rejected response =>
      (setLoading false (setAssets (JArr []) st),
       EConsoleError "Error fetching assets:"
         :: (if authFailure response then [ENavigate "/signin"]
             else if withToast
                  then [EToast (MVal (JStr "Failed to load assets"))
                               (Some "error")]
                  else []),
       [])
  end.

Definition fetchAssets (withToast : bool) : Task State :=
  Await getAssets (fetchAssets_k withToast).

(** [useEffect(() => { fetchAssets(); }, [])]: no [showToast] is passed. *)
Definition mount : list (Task State) := [fetchAssets false].

Definition handleChange (name : string) (value : JsVal) (st : State)
  : Reaction State :=
  (setFormData
     (match formData st with
      | JObj fs => JObj (setField name value fs)
      | _ => JObj [(name, value)]
      end) st, [], []).

Definition handleSubmit_k (updating : bool) (o : Outcome) (st : State)
  : Reaction State :=
  match o with
  | Resolved _ =>
      (setFormData defaultForm (setEditingAsset JNull (setShowForm false st)),
       [EToast (MVal (JStr (if updating then "Asset updated successfully!"
                            else "Asset created successfully!"))) None],
       [fetchAssets true])
  | Rejected response =>
      (st,
       [EToast (MVal (orElse (serverError response)
                             (JStr "Error saving asset"))) (Some "error")],
       [])
  end.

Definition handleSubmit (st : State) : Reaction State :=
  (st, [EPreventDefault],
   [if truthy (editingAsset st)
    then Await (updateAsset (optProp (editingAsset st) "id") (formData st))
               (handleSubmit_k true)
    else Await (createAsset (formData st)) (handleSubmit_k false)]).

Definition handleEdit (asset : JsVal) (st : State) : Reaction State :=
  match prop asset "name", prop asset "asset_type",
        prop asset "total_quantity", prop asset "condition" with
  | Some n, Some ty, Some q, Some c =>
      (setShowForm true
         (setFormData
            (JObj [("name", n); ("asset_type", ty);
                   ("total_quantity", q); ("condition", c)])
            (setEditingAsset asset st)), [], [])
  | _, _, _, _ => (setEditingAsset asset st, [], [])
  end.

Definition handleDelete_k (o : Outcome) (st : State) : Reaction State :=
  match o with
  | Resolved _ =>
      (st, [EToast (MVal (JStr "Asset deleted successfully!")) None],
       [fetchAssets true])
  | Rejected _ =>
      (st, [EToast (MVal (JStr "Error deleting asset")) (Some "error")], [])
  end.

Definition handleDelete (id : JsVal) (confirmed : bool) (st : State)
  : Reaction State :=
  (st, [EConfirm (MVal (JStr "Are you sure you want to delete this asset?"))],
   if confirmed then [Await (deleteAsset id) handleDelete_k] else []).

Definition handleCancel (st : State) : Reaction State :=
  (setFormData defaultForm (setEditingAsset JNull (setShowForm false st)),
   [], []).

End Assets.

(** ** useDamageTracking *)

Module Damage.

Record State : Type := mkState {
  rooms : JsVal;
  damageReports : JsVal;
  selectedRoom : string;
  assetType : string;
  description : string;
  loading : bool
}.

Definition init : State := mkState (JArr []) (JArr []) "" "Bed" "" true.

Definition ASSET_TYPES : list string :=
  ["Bed"; "Table"; "Chair"; "Cupboard"; "Fan"; "Light"; "Other"].

Definition setRooms v st :=
  mkState v (damageReports st) (selectedRoom st) (assetType st)
          (description st) (loading st).
Definition setDamageReports v st :=
  mkState (rooms st) v (selectedRoom st) (assetType st)
          (description st) (loading st).
Definition setSelectedRoom s st :=
  mkState (rooms st) (damageReports st) s (assetType st)
          (description st) (loading st).
Definition setAssetType s st :=
  mkState (rooms st) (damageReports st) (selectedRoom st) s
          (description st) (loading st).
Definition setDescription s st :=
  mkState (rooms st) (damageReports st) (selectedRoom st) (assetType st)
          s (loading st).
Definition setLoading b st :=
  mkState (rooms st) (damageReports st) (selectedRoom st) (assetType st)
          (description st) b.

Definition fetchRooms_k (o : Outcome) (st : State) : Reaction State :=
  match o with
  | Resolved data =>
      (setLoading false (setRooms (arrayOrEmpty data) st), [], [])
  | Rejected response =>
      (setLoading false (setRooms (JArr []) st),
       EConsoleError "Error fetching rooms:"
         :: (if authFailure response then [ENavigate "/signin"] else []),
       [])
  end.

Definition fetchRooms : Task State := Await getRooms fetchRooms_k.

Definition fetchDamageReports_k (o : Outcome) (st : State)
  : Reaction State :=
  match o with
  | Resolved data => (setDamageReports (arrayOrEmpty data) st, [], [])
  | Rejected _ =>
      (setDamageReports (JArr []) st,
       [EConsoleError "Error fetching damage reports:"], [])
  end.

Definition fetchDamageReports : Task State :=
  Await getDamageReports fetchDamageReports_k.

(** [useEffect(() => { fetchRooms(); fetchDamageReports(); }, [])] *)
Definition mount : list (Task State) := [fetchRooms; fetchDamageReports].

Definition handleSubmit_k (o : Outcome) (st : State) : Reaction State :=
  match o with
  | Resolved _ =>
      (setDescription "" st,
       [EToast (MVal (JStr "Damage report added successfully!"))
               (Some "success")],
       [fetchDamageReports])
  | Rejected response =>
      (st,
       [EToast (MVal (orElse (serverError response)
                             (JStr "Failed to add damage report")))
               (Some "error");
        EConsoleError "Error:"],
       [])
  end.

Definition handleSubmit (st : State) : Reaction State :=
  if selectedRoom st =? "" then
    (st, [EPreventDefault;
          EToast (MVal (JStr "Please select a room")) (Some "error")], [])
  else if trim (description st) =? "" then
    (st, [EPreventDefault;
          EToast (MVal (JStr "Please enter damage description"))
                 (Some "error")], [])
  else
    (st, [EPreventDefault],
     [Await (createDamageReport
               (JObj [("room", JStr (selectedRoom st));
                      ("asset_type", JStr (assetType st));
                      ("description", JStr (trim (description st)))]))
            handleSubmit_k]).



Definition handleStatusChange_k (o : Outcome) (st : State)
  : Reaction State :=
  match o with
  | Resolved _ =>
      (st, [EToast (MVal (JStr "Status updated successfully!"))
                   (Some "success")],
       [fetchDamageReports])
  | Rejected _ =>
      (st, [EToast (MVal (JStr "Error updating status")) (Some "error");
            EConsoleError "Error:"], [])
  end.


Definition handleDelete_k (o : Outcome) (st : State) : Reaction State :=
  match o with
  | Resolved _ =>
      (st, [EToast (MVal (JStr "Damage report deleted successfully!"))
                   (Some "success")],
       [fetchDamageReports])
  | Rejected _ =>
      (st, [EToast (MVal (JStr "Error deleting report")) (Some "error");
            EConsoleError "Error:"], [])
  end.

Definition handleDelete (reportId roomNumber assetType : JsVal)
  (confirmed : bool) (st : State) : Reaction State :=
  (st,
   [EConfirm (MTemplate "Delete damage report for " assetType
                        " in Room " roomNumber "?")],
   if confirmed then [Await (deleteDamageReport reportId) handleDelete_k]
   else []).

End Damage.

(** ** Dashboard *)

Module Dashboard.

Record State : Type := mkState {
  summary : JsVal;
  user : JsVal;
  loading : bool
}.

Definition init : State :=
  mkState (JObj [("total_assets", JNum 0); ("damage_reports", JNum 0);
                 ("total_rooms", JNum 0); ("total_users", JNum 0)])
          JNull true.

Definition setSummary v st := mkState v (user st) (loading st).
Definition setUser v st := mkState (summary st) v (loading st).
Definition setLoading b st := mkState (summary st) (user st) b.

Definition fetchDashboardData_k (o : Outcome) (st : State)
  : Reaction State :=
  match o with
  | Resolved data => (setLoading false (setSummary data st), [], [])
  | Rejected response =>
      (setLoading false st,
       EConsoleError "Error fetching dashboard data:"
         :: (if authFailure response then [ENavigate "/signin"] else []),
       [])
  end.

Definition fetchDashboardData : Task State :=
  Await getDashboardSummary fetchDashboardData_k.

Definition fetchCurrentUser_k (o : Outcome) (st : State) : Reaction State :=
  match o with
  | Resolved data => (setUser data st, [], [])
  | Rejected _ => (st, [EConsoleError "Error fetching user:"], [])
  end.

Definition fetchCurrentUser : Task State :=
  Await getCurrentUser fetchCurrentUser_k.

(** [useEffect(() => { fetchDashboardData(); fetchCurrentUser(); }, [])] *)
Definition mount : list (Task State) := [fetchDashboardData; fetchCurrentUser].

Definition handleLogout_k (o : Outcome) (st : State) : Reaction State :=
  match o with
  | Resolved _ => (st, [ERemoveItem "user"; ENavigate "/signin"], [])
  | Rejected _ => (st, [EConsoleError "Logout error:"], [])
  end.

Definition handleLogout (st : State) : Reaction State :=
  (st, [], [Await logout handleLogout_k]).

End Dashboard.

(** ** Profile *)

Module Profile.

Record State : Type := mkState {
  user : JsVal;
  phoneNumber : JsVal;
  firstName : JsVal;
  lastName : JsVal;
  loading : bool;
  showUpdateForm : bool
}.

Definition init : State :=
  mkState JNull (JStr "") (JStr "") (JStr "") true false.

Definition setUser v st :=
  mkState v (phoneNumber st) (firstName st) (lastName st) (loading st)
          (showUpdateForm st).
Definition setNames ph fn ln st :=
  mkState (user st) ph fn ln (loading st) (showUpdateForm st).
Definition setLoading b st :=
  mkState (user st) (phoneNumber st) (firstName st) (lastName st) b
          (showUpdateForm st).
Definition setShowUpdateForm b st :=
  mkState (user st) (phoneNumber st) (firstName st) (lastName st)
          (loading st) b.

Definition fetchCurrentUser_k (o : Outcome) (st : State) : Reaction State :=
  match o with
  | Resolved data =>
      match prop data "phone_number", prop data "first_name",
            prop data "last_name" with
      | Some ph, Some fn, Some ln =>
          (setLoading false
             (setNames (orElse ph (JStr "")) (orElse fn (JStr ""))
                       (orElse ln (JStr "")) (setUser data st)), [], [])
      | _, _, _ =>
          (* reading a property of [null] throws inside the [try] *)
          (setLoading false (setUser data st),
           [EConsoleError "Error fetching user:"], [])
      end
  | Rejected response =>
      (setLoading false st,
       EConsoleError "Error fetching user:"
         :: (if authFailure response then [ENavigate "/signin"] else []),
       [])
  end.

Definition fetchCurrentUser : Task State :=
  Await getCurrentUser fetchCurrentUser_k.

Definition mount : list (Task State) := [fetchCurrentUser].

Definition handleUpdateProfile_k (o : Outcome) (st : State)
  : Reaction State :=
  match o with
  | Resolved _ =>
      (setShowUpdateForm false st,
       [EToast (MVal (JStr "Profile updated successfully!")) (Some "success")],
       [fetchCurrentUser])
  | Rejected _ =>
      (st, [EToast (MVal (JStr "Error updating profile")) (Some "error")], [])
  end.

Definition handleUpdateProfile (st : State) : Reaction State :=
  (st, [EPreventDefault],
   [Await (updateProfile
             (JObj [("phone_number", phoneNumber st);
                    ("first_name", firstName st);
                    ("last_name", lastName st)]))
          handleUpdateProfile_k]).

End Profile.

(** ** UserManagement *)

Module Users.

Record State : Type := mkState {
  user : JsVal;
  loading : bool;
  allUsers : JsVal
}.

Definition init : State := mkState JNull true (JArr []).

Definition setUser v st := mkState v (loading st) (allUsers st).
Definition setLoading b st := mkState (user st) b (allUsers st).
Definition setAllUsers v st := mkState (user st) (loading st) v.

Definition fetchAllUsers_k (o : Outcome) (st : State) : Reaction State :=
  match o with
  | Resolved data => (setAllUsers data st, [], [])
  | Rejected _ => (st, [EConsoleError "Error fetching users:"], [])
  end.

Definition fetchAllUsers : Task State := Await listUsers fetchAllUsers_k.

Definition fetchCurrentUser_k (o : Outcome) (st : State) : Reaction State :=
  match o with
  | Resolved data =>
      match prop data "role" with
      | Some role =>
          if negb (strictEq role (JStr "Warden"))
          then (setLoading false (setUser data st),
                [ENavigate "/dashboard"], [])
          else (setLoading false (setUser data st), [], [fetchAllUsers])
      | None =>
          (* [response.data.role] throws on [null]; the error caught has
             no [response] *)
          (setLoading false (setUser data st),
           [EConsoleError "Error fetching user:"], [])
      end
  | Rejected response =>
      (setLoading false st,
       EConsoleError "Error fetching user:"
         :: (if authFailure response then [ENavigate "/signin"] else []),
       [])
  end.

Definition fetchCurrentUser : Task State :=
  Await getCurrentUser fetchCurrentUser_k.

(** [useEffect(() => { fetchCurrentUser(); }, [])] *)
Definition mount : list (Task State) := [fetchCurrentUser].

Definition handleRoleChange_k (o : Outcome) (st : State) : Reaction State :=
  match o with
  | Resolved _ =>
      (st, [EToast (MVal (JStr "User role updated successfully!"))
                   (Some "success")],
       [fetchAllUsers])
  | Rejected response =>
      (st, [EToast (MCat "Error updating role: "
                      (orElse (serverError response) (JStr "Unknown error")))
                   (Some "error")], [])
  end.

Definition handleRoleChange (userId : JsVal) (newRole : string) (st : State)
  : Reaction State :=
  (st, [],
   [Await (updateUser userId (JObj [("role", JStr newRole)]))
          handleRoleChange_k]).

Definition handleDeleteUser_k (o : Outcome) (st : State) : Reaction State :=
  match o with
  | Resolved _ =>
      (st, [EToast (MVal (JStr "User deleted successfully!")) (Some "success")],
       [fetchAllUsers])
  | Rejected response =>
      (st, [EToast (MCat "Error deleting user: "
                      (orElse (serverError response) (JStr "Unknown error")))
                   (Some "error")], [])
  end.

Definition handleDeleteUser (userId : JsVal) (confirmed : bool) (st : State)
  : Reaction State :=
  (st,
   [EConfirm (MVal (JStr
      "Are you sure you want to delete this user? This action cannot be undone."))],
   if confirmed then [Await (deleteUser userId) handleDeleteUser_k] else []).

(** *** The table *)

(** The role cell: a [<span>] badge, or a [<select>] whose [onChange]
    calls [handleRoleChange(u.id, ...)]. *)
Inductive RoleCell : Type :=
| RoleBadge (role : JsVal)
| RoleSelect (value : JsVal) (target : JsVal).

(** The action cell: a Delete button calling [handleDeleteUser(u.id)], or
    the text "You". *)
Inductive ActionCell : Type :=
| DeleteButton (target : JsVal)
| YouLabel.

Definition interactive (c : RoleCell) : bool :=
  match c with RoleSelect _ _ => true | RoleBadge _ => false end.

Definition hasDelete (c : ActionCell) : bool :=
  match c with DeleteButton _ => true | YouLabel => false end.

(** One [<tr>] of [allUsers.map(u => ...)]; [None] when reading a property
    of [u] throws. *)
Definition renderRow (current : JsVal) (u : JsVal)
  : option (RoleCell * ActionCell) :=
  match prop u "id", prop u "role" with
  | Some uid, Some role =>
      Some (if strictEq uid (optProp current "id")
            then RoleBadge role
            else RoleSelect role uid,
            if negb (strictEq uid (optProp current "id"))
            then DeleteButton uid
            else YouLabel)
  | _, _ => None
  end.

Fixpoint renderRows (current : JsVal) (us : list JsVal)
  : option (list (RoleCell * ActionCell)) :=
  match us with
  | [] => Some []
  | u :: rest =>
      match renderRow current u, renderRows current rest with
      | Some r, Some rs => Some (r :: rs)
      | _, _ => None
      end
  end.

(** The rows on screen: none while loading, none when rendering throws. *)
Definition table (st : State) : list (RoleCell * ActionCell) :=
  if loading st then []
  else match allUsers st with
       | JArr us =>
           match renderRows (user st) us with Some rs => rs | None => [] end
       | _ => []
       end.

(** The [<option>] values of the role selector. *)
Definition roleOptions : list string :=
  ["Pending"; "Warden"; "Sub-Warden"; "Inventory Staff"].

(** What the user can do on the page. *)
Inductive UI : Type :=
| BackToDashboard
| SelectRole (row : nat) (newRole : string)
| ClickDelete (row : nat) (confirmed : bool).

Definition fire (e : UI) (st : State) : option (Reaction State) :=
  match e with
  | BackToDashboard =>
      if loading st then None else Some (st, [ENavigate "/dashboard"], [])
  | SelectRole row newRole =>
      match nth_error (table st) row with
      | Some (RoleSelect _ target, _) =>
          if existsb (String.eqb newRole) roleOptions
          then Some (handleRoleChange target newRole st)
          else None
      | _ => None
      end
  | ClickDelete row confirmed =>
      match nth_error (table st) row with
      | Some (_, DeleteButton target) =>
          Some (handleDeleteUser target confirmed st)
      | _ => None
      end
  end.

End Users.

(** ** ForgotPassword *)

Module Forgot.

Record State : Type := mkState {
  step : Z;
  email : string;
  code : string;
  newPassword : string;
  confirmPassword : string;
  loading : bool
}.

Definition init : State := mkState 1 "" "" "" "" false.

Definition setStep n st :=
  mkState n (email st) (code st) (newPassword st) (confirmPassword st)
          (loading st).
Definition setEmail s st :=
  mkState (step st) s (code st) (newPassword st) (confirmPassword st)
          (loading st).
Definition setCode s st :=
  mkState (step st) (email st) s (newPassword st) (confirmPassword st)
          (loading st).
Definition setNewPassword s st :=
  mkState (step st) (email st) (code st) s (confirmPassword st) (loading st).
Definition setConfirmPassword s st :=
  mkState (step st) (email st) (code st) (newPassword st) s (loading st).
Definition setLoading b st :=
  mkState (step st) (email st) (code st) (newPassword st)
          (confirmPassword st) b.

Definition handleRequestCode_k (o : Outcome) (st : State) : Reaction State :=
  match o with
  | Resolved _ =>
      (setLoading false (setStep 2 st),
       [EToast (MVal (JStr "Reset code sent to your email!")) (Some "success")],
       [])
  | Rejected response =>
      (setLoading false st,
       [EToast (MVal (orElse (serverError response)
                             (JStr "Failed to send reset code")))
               (Some "error")], [])
  end.

Definition handleRequestCode (st : State) : Reaction State :=
  (setLoading true st, [EPreventDefault],
   [Await (requestPasswordReset (email st)) handleRequestCode_k]).

Definition handleVerifyCode_k (o : Outcome) (st : State) : Reaction State :=
  match o with
  | Resolved _ =>
      (setLoading false (setStep 3 st),
       [EToast (MVal (JStr "Code verified! Enter your new password"))
               (Some "success")],
       [])
  | Rejected response =>
      (setLoading false st,
       [EToast (MVal (orElse (serverError response)
                             (JStr "Invalid or expired code")))
               (Some "error")], [])
  end.

Definition handleVerifyCode (st : State) : Reaction State :=
  (setLoading true st, [EPreventDefault],
   [Await (verifyResetCode (email st) (code st)) handleVerifyCode_k]).

Definition handleResetPassword_k (o : Outcome) (st : State)
  : Reaction State :=
  match o with
  | Resolved _ =>
      (setLoading false st,
       [EToast (MVal (JStr "Password reset successfully! Redirecting to login..."))
               (Some "success");
        ENavigateAfter 2000 "/signin"],
       [])
  | Rejected response =>
      (setLoading false st,
       [EToast (MVal (orElse (serverError response)
                             (JStr "Failed to reset password")))
               (Some "error")], [])
  end.

Definition handleResetPassword (st : State) : Reaction State :=
  if negb (newPassword st =? confirmPassword st) then
    (st, [EPreventDefault;
          EToast (MVal (JStr "Passwords do not match")) (Some "error")], [])
  else if (String.length (newPassword st) <? 4)%nat then
    (st, [EPreventDefault;
          EToast (MVal (JStr "Password must be at least 4 characters"))
                 (Some "error")], [])
  else
    (setLoading true st, [EPreventDefault],
     [Await (resetPasswordWithCode (email st) (code st) (newPassword st))
            handleResetPassword_k]).

(** What the rendered form lets the user do.  Only the form of the
    current step is on screen; its inputs are [required]; the submit
    button is [disabled] while [loading]; the code input has
    [maxLength=6]; the Change Email button is never disabled.  The format
    check of the [type="email"] input is left out: any non-empty text can
    be submitted. *)
Inductive UI : Type :=
| TypeEmail (s : string)
| SubmitEmail
| TypeCode (s : string)
| SubmitCode
| ChangeEmail
| TypeNewPassword (s : string)
| TypeConfirmPassword (s : string)
| SubmitPassword.

Definition fire (e : UI) (st : State) : option (Reaction State) :=
  match e with
  | TypeEmail s =>
      if (step st =? 1)%Z then Some (setEmail s st, [], []) else None
  | SubmitEmail =>
      if (step st =? 1)%Z && negb (loading st) && negb (email st =? "")
      then Some (handleRequestCode st) else None
  | TypeCode s =>
      if (step st =? 2)%Z && (String.length s <=? 6)%nat
      then Some (setCode s st, [], []) else None
  | SubmitCode =>
      if (step st =? 2)%Z && negb (loading st) && negb (code st =? "")
      then Some (handleVerifyCode st) else None
  | ChangeEmail =>
      if (step st =? 2)%Z then Some (setStep 1 st, [], []) else None
  | TypeNewPassword s =>
      if (step st =? 3)%Z then Some (setNewPassword s st, [], []) else None
  | TypeConfirmPassword s =>
      if (step st =? 3)%Z then Some (setConfirmPassword s st, [], []) else None
  | SubmitPassword =>
      if (step st =? 3)%Z && negb (loading st)
         && negb (newPassword st =? "") && negb (confirmPassword st =? "")
      then Some (handleResetPassword st) else None
  end.

End Forgot.

(** ** A page at run time *)

(** A mounted component: its state, the requests in flight and what has
    happened so far.  The user fires a rendered control, or one of the
    requests in flight settles; requests settle in any order. *)
Section Page.

Variables S UI : Type.
Variable fire : UI -> S -> option (Reaction S).

Inductive Input : Type :=
| Fire (e : UI)
| Settle (i : nat) (o : Outcome).

Inductive Event : Type :=
| Did (e : Effect)
| Sent (c : Call)
| Got (c : Call) (o : Outcome).

Record Config : Type := mkConfig {
  store : S;
  inflight : list (Task S);
  history : list Event
}.

Fixpoint dropNth {A} (i : nat) (l : list A) : list A :=
  match l, i with
  | [], _ => []
  | _ :: rest, O => rest
  | x :: rest, Datatypes.S j => x :: dropNth j rest
  end.

Definition absorb (hist : list Event) (rest : list (Task S))
  (r : Reaction S) : Config :=
  mkConfig (stateOf r) (rest ++ spawnedOf r)
           (hist ++ map Did (effectsOf r) ++ map Sent (requestsOf r)).

Definition next (cfg : Config) (i : Input) : option Config :=
  match i with
  | Fire e =>
      match fire e (store cfg) with
      | Some r => Some (absorb (history cfg) (inflight cfg) r)
      | None => None
      end
  | Settle n o =>
      match nth_error (inflight cfg) n with
      | Some t =>
          Some (absorb (history cfg ++ [Got (callOf t) o])
                       (dropNth n (inflight cfg))
                       (settle t o (store cfg)))
      | None => None
      end
  end.

Fixpoint run (cfg : Config) (inputs : list Input) : option Config :=
  match inputs with
  | [] => Some cfg
  | i :: rest =>
      match next cfg i with
      | Some cfg' => run cfg' rest
      | None => None
      end
  end.

(** The component as mounted: initial state and the requests its
    [useEffect] issues.  The effect runs once, as in a production build. *)
Definition mounted (s0 : S) (tasks : list (Task S)) : Config :=
  mkConfig s0 tasks (map (fun t => Sent (callOf t)) tasks).

Definition reachable (start cfg : Config) : Prop :=
  exists inputs, run start inputs = Some cfg.

End Page.

Arguments Fire {UI} e.
Arguments Settle {UI} i o.

(** ** Vocabulary of the properties *)

(** A data fetch: the request and what the page does when it settles. *)
Record Fetch : Type := mkFetch {
  FState : Type;
  fetchCall : Call;
  onSettle : Outcome -> FState -> Reaction FState
}.

Definition fetchOf {S} (t : Task S) : Fetch := mkFetch (callOf t) (settle t).

(** The fetches whose [catch] block tests the status and navigates. *)
Definition gatedFetches : list Fetch :=
  [fetchOf Rooms.fetchRooms;
   fetchOf (Assets.fetchAssets false);
   fetchOf (Assets.fetchAssets true);
   fetchOf Damage.fetchRooms;
   fetchOf Dashboard.fetchDashboardData;
   fetchOf Profile.fetchCurrentUser;
   fetchOf Users.fetchCurrentUser].

(** The fetches whose [catch] block only logs. *)
Definition loggingFetches : list Fetch :=
  [fetchOf Damage.fetchDamageReports;
   fetchOf Dashboard.fetchCurrentUser;
   fetchOf Users.fetchAllUsers].

(** The protected routes of App.js with the fetches each page issues when
    it mounts. *)
Definition protectedPages : list (string * list Fetch) :=
  [("/dashboard", map fetchOf Dashboard.mount);
   ("/assets", map fetchOf Assets.mount);
   ("/rooms", map fetchOf Rooms.mount);
   ("/profile", map fetchOf Profile.mount);
   ("/damage-tracking", map fetchOf Damage.mount);
   ("/user-management", map fetchOf Users.mount)].

Definition redirectsToSignIn (f : Fetch) (response : JsVal) : Prop :=
  forall st, navigatesTo "/signin" (onSettle f (Rejected response) st) = true.

(** A fetch together with the list-holding state it writes. *)
Record ListFetch : Type := mkListFetch {
  fetch : Fetch;
  listOf : FState fetch -> JsVal
}.

Definition listFetches : list ListFetch :=
  [mkListFetch (fetchOf Rooms.fetchRooms) Rooms.rooms;
   mkListFetch (fetchOf (Assets.fetchAssets false)) Assets.assets;
   mkListFetch (fetchOf (Assets.fetchAssets true)) Assets.assets;
   mkListFetch (fetchOf Damage.fetchRooms) Damage.rooms;
   mkListFetch (fetchOf Damage.fetchDamageReports) Damage.damageReports].

(** The list a settled fetch leaves in the state. *)
Definition listAfter (h : ListFetch) (o : Outcome) (st : FState (fetch h))
  : JsVal :=
  listOf h (stateOf (onSettle (fetch h) o st)).

(** The three form fields of the damage-report form and their initial
    values. *)
Definition damageFields (st : Damage.State) : string * string * string :=
  (Damage.selectedRoom st, Damage.assetType st, Damage.description st).

Definition damageDefaults : string * string * string :=
  damageFields Damage.init.

(** The user-management page as mounted, and the password-reset page as
    mounted (it issues no request on mount). *)
Definition usersStart : Config Users.State :=
  mounted Users.init Users.mount.

Definition forgotStart : Config Forgot.State :=
  mounted Forgot.init [].

(** The identity fetch has come back with role ['Warden']. *)
Definition wardenSeen (hist : list Event) : Prop :=
  exists d, In (Got getCurrentUser (Resolved d)) hist
            /\ prop d "role" = Some (JStr "Warden").

(** The requests the user-management page issues once the table is shown. *)
Definition usersTask (t : Task Users.State) : Prop :=
  t = Users.fetchAllUsers
  \/ (exists id data, t = Await (updateUser id data) Users.handleRoleChange_k)
  \/ (exists id, t = Await (deleteUser id) Users.handleDeleteUser_k).

(** Where the user-management page can be: waiting for the identity,
    turned away, or admitted as Warden. *)
Definition usersInv (cfg : Config Users.State) : Prop :=
  (inflight cfg = [Users.fetchCurrentUser]
   /\ Users.loading (store cfg) = true
   /\ Users.allUsers (store cfg) = JArr []
   /\ history cfg = [Sent getCurrentUser])
  \/ (inflight cfg = []
      /\ Users.allUsers (store cfg) = JArr []
      /\ ~ In (Sent listUsers) (history cfg)
      /\ exists o,
          (forall o', In (Got getCurrentUser o') (history cfg) -> o' = o)
          /\ (forall d, o = Resolved d ->
                (prop d "role" <> Some (JStr "Warden")
                 /\ (prop d "role" <> None ->
                     In (Did (ENavigate "/dashboard")) (history cfg)))))
  \/ (Forall usersTask (inflight cfg)
      /\ exists d,
          prop d "role" = Some (JStr "Warden")
          /\ In (Got getCurrentUser (Resolved d)) (history cfg)
          /\ (forall o', In (Got getCurrentUser o') (history cfg) ->
                         o' = Resolved d)).

(** A verification call has resolved successfully. *)
Definition verified (hist : list Event) : Prop :=
  exists e c d, In (Got (verifyResetCode e c) (Resolved d)) hist.

(** At most one request of the reset flow is in flight, and [loading] says
    whether one is; each kind of request waits at its own steps. *)
Definition forgotInv (cfg : Config Forgot.State) : Prop :=
  (Forgot.step (store cfg) = 3%Z -> verified (history cfg))
  /\ match inflight cfg with
     | [] =>
         Forgot.loading (store cfg) = false
         /\ (Forgot.step (store cfg) = 1 \/ Forgot.step (store cfg) = 2
             \/ Forgot.step (store cfg) = 3)%Z
     | [t] =>
         Forgot.loading (store cfg) = true
         /\ ((exists e, t = Await (requestPasswordReset e)
                                  Forgot.handleRequestCode_k
                        /\ Forgot.step (store cfg) = 1%Z)
             \/ (exists e c, t = Await (verifyResetCode e c)
                                       Forgot.handleVerifyCode_k
                             /\ (Forgot.step (store cfg) = 1
                                 \/ Forgot.step (store cfg) = 2)%Z)
             \/ (exists e c p, t = Await (resetPasswordWithCode e c p)
                                         Forgot.handleResetPassword_k
                               /\ Forgot.step (store cfg) = 3%Z))
     | _ => False
     end.

(** What made the step indicator move. *)
Inductive Move : Type :=
| CodeRequested
| CodeVerified
| EmailChanged.

(** The cause of an input, read off the configuration it arrives in. *)
Definition cause (cfg : Config Forgot.State) (i : Input Forgot.UI)
  : option Move :=
  match i with
  | Fire Forgot.ChangeEmail => Some EmailChanged
  | Settle n (Resolved _) =>
      match option_map (@callOf _) (nth_error (inflight cfg) n) with
      | Some (requestPasswordReset _) => Some CodeRequested
      | Some (verifyResetCode _ _) => Some CodeVerified
      | _ => None
      end
  | _ => None
  end.

(** The flow in order: email, code, new password. *)
Definition happyPath : list (Input Forgot.UI) :=
  [Fire (Forgot.TypeEmail "a@b.c"); Fire Forgot.SubmitEmail;
   Settle 0 (Resolved JNull);
   Fire (Forgot.TypeCode "123456"); Fire Forgot.SubmitCode;
   Settle 0 (Resolved JNull)].

(** Change Email clicked while the verification is in flight. *)
Definition changeEmailRace : list (Input Forgot.UI) :=
  [Fire (Forgot.TypeEmail "a@b.c"); Fire Forgot.SubmitEmail;
   Settle 0 (Resolved JNull);
   Fire (Forgot.TypeCode "123456"); Fire Forgot.SubmitCode;
   Fire Forgot.ChangeEmail].

(** * The rest of the code *)

(** ** services/api.js: the requests behind the calls *)

Module Api.

Inductive Method : Type := GET | POST | PUT | DELETE.

(** A template literal: literal text and interpolated values. *)
Inductive Piece : Type :=
| Lit (s : string)
| Interp (v : JsVal).

Definition API_BASE_URL : string := "http://localhost:8000/api".

Record Request : Type := mkRequest {
  method : Method;
  url : list Piece;
  body : option JsVal
}.

(** [`${API_BASE_URL}<path>`] and [`${API_BASE_URL}<path>${id}/`] *)
Definition collection (path : string) : list Piece :=
  [Lit API_BASE_URL; Lit path].
Definition item (path : string) (id : JsVal) : list Piece :=
  [Lit API_BASE_URL; Lit path; Interp id; Lit "/"].

Definition request (c : Call) : Request :=
  match c with
  | register userData =>
      mkRequest POST (collection "/users/register/") (Some userData)
  | login credentials =>
      mkRequest POST (collection "/users/login/") (Some credentials)
  | logout => mkRequest POST (collection "/users/logout/") None
  | getCurrentUser => mkRequest GET (collection "/users/me/") None
  | updateProfile profileData =>
      mkRequest PUT (collection "/users/profile/update/") (Some profileData)
  | createUser userData =>
      mkRequest POST (collection "/users/create-user/") (Some userData)
  | listUsers => mkRequest GET (collection "/users/list/") None
  | updateUser userId userData =>
      mkRequest PUT (item "/users/update-user/" userId) (Some userData)
  | deleteUser userId =>
      mkRequest DELETE (item "/users/delete-user/" userId) None
  | getAssets => mkRequest GET (collection "/assets/assets/") None
  | createAsset assetData =>
      mkRequest POST (collection "/assets/assets/") (Some assetData)
  | updateAsset id assetData =>
      mkRequest PUT (item "/assets/assets/" id) (Some assetData)
  | deleteAsset id => mkRequest DELETE (item "/assets/assets/" id) None
  | getRooms => mkRequest GET (collection "/rooms/") None
  | createRoom roomData =>
      mkRequest POST (collection "/rooms/") (Some roomData)
  | updateRoom id roomData =>
      mkRequest PUT (item "/rooms/" id) (Some roomData)
  | deleteRoom id => mkRequest DELETE (item "/rooms/" id) None
  | getDashboardSummary =>
      mkRequest GET (collection "/dashboard/summary/") None
  | getDamageReports =>
      mkRequest GET (collection "/assets/damage-reports/") None
  | createDamageReport reportData =>
      mkRequest POST (collection "/assets/damage-reports/") (Some reportData)
  | updateDamageReport id reportData =>
      mkRequest PUT (item "/assets/damage-reports/" id) (Some reportData)
  | deleteDamageReport id =>
      mkRequest DELETE (item "/assets/damage-reports/" id) None
  | requestPasswordReset email =>
      mkRequest POST (collection "/users/request-reset/")
                (Some (JObj [("email", JStr email)]))
  | verifyResetCode email code =>
      mkRequest POST (collection "/users/verify-code/")
                (Some (JObj [("email", JStr email); ("code", JStr code)]))
  | resetPasswordWithCode email code newPassword =>
      mkRequest POST (collection "/users/reset-password-with-code/")
                (Some (JObj [("email", JStr email); ("code", JStr code);
                             ("new_password", JStr newPassword)]))
  end.

Fixpoint endsWithSlash (s : string) : bool :=
  match s with
  | EmptyString => false
  | String c EmptyString => Ascii.eqb c "/"%char
  | String _ rest => endsWithSlash rest
  end.

Definition closed (ps : list Piece) : bool :=
  match last ps (Interp JUndefined) with
  | Lit s => endsWithSlash s
  | Interp _ => false
  end.

End Api.

(** ** useAuth *)

(** [v?.[0]] *)
Definition optFirst (v : JsVal) : JsVal :=
  match v with
  | JArr (x :: _) => x
  | JStr (String c _) => JStr (String c EmptyString)
  | JObj fs => getField "0" fs
  | _ => JUndefined
  end.

Module Auth.

(** The hook's state, and the ['user'] entry of [localStorage] it writes
    ([None]: no entry; [Some v]: the JSON text of [v]). *)
Record State : Type := mkState {
  loading : bool;
  error : JsVal;
  storedUser : option JsVal
}.

Definition init (stored : option JsVal) : State :=
  mkState false (JStr "") stored.

Definition setLoading b st := mkState b (error st) (storedUser st).
Definition setError v st := mkState (loading st) v (storedUser st).
Definition setItemUser v st := mkState (loading st) (error st) (Some v).

Definition loginFallback : string :=
  "Login failed. Check your username and password.".

Definition handleLogin_k (o : Outcome) (st : State) : Reaction State :=
  match o with
  | Resolved data =>
      match prop data "user" with
      | Some u =>
          (setLoading false (setItemUser u st),
           [EToast (MVal (JStr "Login successful!")) (Some "success");
            ENavigateAfter 1500 "/dashboard"], [])
      | None =>
          (* [response.data.user] throws; the error has no [response] *)
          (setLoading false (setError (JStr loginFallback) st),
           [EConsoleError "Login error:"], [])
      end
  | Rejected response =>
      (setLoading false
         (setError (orElse (serverError response) (JStr loginFallback)) st),
       [EConsoleError "Login error:"], [])
  end.

Definition handleLogin (username password : string) (st : State)
  : Reaction State :=
  (setLoading true (setError (JStr "") st), [],
   [Await (login (JObj [("username", JStr username);
                        ("password", JStr password)]))
          handleLogin_k]).

Definition registerFallback : string :=
  "Registration failed. Please check your details.".

(** [err.response?.data?.error || err.response?.data?.username?.[0] || ...] *)
Definition registerError (response : JsVal) : JsVal :=
  orElse (serverError response)
         (orElse (optFirst (optProp (optProp response "data") "username"))
                 (JStr registerFallback)).

Definition handleRegister_k (o : Outcome) (st : State) : Reaction State :=
  match o with
  | Resolved _ =>
      (setLoading false st,
       [EToast (MVal (JStr "Registration successful! Redirecting to login..."))
               (Some "success");
        ENavigateAfter 2000 "/signin"], [])
  | Rejected response =>
      (setLoading false (setError (registerError response) st),
       [EConsoleError "Registration error:"], [])
  end.

Definition handleRegister (formData : JsVal) (st : State) : Reaction State :=
  (setLoading true (setError (JStr "") st), [],
   [Await (register formData) handleRegister_k]).

End Auth.

(** A hook used inside a page: its tasks act on the hook's part of the
    page state. *)
Section Lift.

Variables (A B : Type) (get : B -> A) (put : A -> B -> B).

Fixpoint liftTask (t : Task A) : Task B :=
  match t with
  | Await c k =>
      Await c (fun o b =>
                 match k o (get b) with
                 | (a, effs, ts) => (put a b, effs, map liftTask ts)
                 end)
  end.

Definition liftReaction (r : Reaction A) (b : B) : Reaction B :=
  (put (stateOf r) b, effectsOf r, map liftTask (spawnedOf r)).

End Lift.

(** ** SignIn *)

Module SignIn.

Record State : Type := mkState {
  username : string;
  password : string;
  auth : Auth.State
}.

Definition init (stored : option JsVal) : State :=
  mkState "" "" (Auth.init stored).

Definition setUsername s st := mkState s (password st) (auth st).
Definition setPassword s st := mkState (username st) s (auth st).
Definition setAuth a st := mkState (username st) (password st) a.

Definition loginTask (u p : string) : Task State :=
  liftTask auth setAuth
    (Await (login (JObj [("username", JStr u); ("password", JStr p)]))
           Auth.handleLogin_k).

(** [onSubmit]: [e.preventDefault(); handleLogin(username, password, showToast)] *)
Definition onSubmit (st : State) : Reaction State :=
  let r := liftReaction auth setAuth
             (Auth.handleLogin (username st) (password st) (auth st)) st in
  (stateOf r, EPreventDefault :: effectsOf r, spawnedOf r).

(** Both inputs are [required]; the button is [disabled] while [loading]. *)
Inductive UI : Type :=
| TypeUsername (s : string)
| TypePassword (s : string)
| Submit.

Definition fire (e : UI) (st : State) : option (Reaction State) :=
  match e with
  | TypeUsername s => Some (setUsername s st, [], [])
  | TypePassword s => Some (setPassword s st, [], [])
  | Submit =>
      if negb (Auth.loading (auth st))
         && negb (username st =? "") && negb (password st =? "")
      then Some (onSubmit st) else None
  end.

End SignIn.

(** ** The Rooms page *)

Module RoomsPage.

(** The [name]s of the four inputs of the form. *)
Definition fieldNames : list string :=
  ["room_number"; "hostel_name"; "floor"; "capacity"].

(** The rows of the table: none while loading; [rooms.map] reads
    [room.id] of every element, which throws on [null], and then nothing
    of the page is left. *)
Definition rows (st : Rooms.State) : option (list JsVal) :=
  if Rooms.loading st then None
  else match Rooms.rooms st with
       | JArr l =>
           if forallb (fun room => match prop room "id" with
                                   | Some _ => true
                                   | None => false
                                   end) l
           then Some l else None
       | _ => None
       end.

(** The controls of the page.  The constraint validation of the inputs
    ([required], [min]) is left out: a submit the browser would refuse is
    allowed here. *)
Inductive UI : Type :=
| BackToDashboard
| ToggleForm
| TypeField (name value : string)
| SubmitForm
| ClickEdit (row : nat)
| ClickDelete (row : nat) (confirmed : bool).

Definition fire (e : UI) (st : Rooms.State) : option (Reaction Rooms.State) :=
  match rows st with
  | None => None
  | Some l =>
      match e with
      | BackToDashboard => Some (st, [ENavigate "/dashboard"], [])
      | ToggleForm =>
          Some (if Rooms.showForm st then Rooms.handleCancel st
                else (Rooms.setShowForm true st, [], []))
      | TypeField name value =>
          if Rooms.showForm st && existsb (String.eqb name) fieldNames
          then Some (Rooms.handleChange name (JStr value) st) else None
      | SubmitForm =>
          if Rooms.showForm st then Some (Rooms.handleSubmit st) else None
      | ClickEdit row =>
          match nth_error l row with
          | Some room => Some (Rooms.handleEdit room st)
          | None => None
          end
      | ClickDelete row confirmed =>
          match nth_error l row with
          | Some room =>
              Some (Rooms.handleDelete (optProp room "id") confirmed st)
          | None => None
          end
      end
  end.

End RoomsPage.

(** ** The Assets page *)

Module AssetsPage.

Definition fieldNames : list string :=
  ["name"; "asset_type"; "total_quantity"; "condition"].

Definition typeOptions : list string :=
  ["Bed"; "Table"; "Chair"; "Cupboard"; "Fan"; "Light"; "Other"].

Definition conditionOptions : list string := ["Good"; "Damaged"].

(** What an input can hand to [handleChange]: free text, or one of the
    options of a [<select>]. *)
Definition offers (name value : string) : bool :=
  if name =? "asset_type" then existsb (String.eqb value) typeOptions
  else if name =? "condition" then existsb (String.eqb value) conditionOptions
  else existsb (String.eqb name) fieldNames.

Definition rows (st : Assets.State) : option (list JsVal) :=
  if Assets.loading st then None
  else match Assets.assets st with
       | JArr l =>
           if forallb (fun asset => match prop asset "id" with
                                    | Some _ => true
                                    | None => false
                                    end) l
           then Some l else None
       | _ => None
       end.

Inductive UI : Type :=
| BackToDashboard
| ToggleForm
| TypeField (name value : string)
| SubmitForm
| ClickEdit (row : nat)
| ClickDelete (row : nat) (confirmed : bool).

Definition fire (e : UI) (st : Assets.State)
  : option (Reaction Assets.State) :=
  match rows st with
  | None => None
  | Some l =>
      match e with
      | BackToDashboard => Some (st, [ENavigate "/dashboard"], [])
      | ToggleForm =>
          Some (if Assets.showForm st then Assets.handleCancel st
                else (Assets.setShowForm true st, [], []))
      | TypeField name value =>
          if Assets.showForm st && offers name value
          then Some (Assets.handleChange name (JStr value) st) else None
      | SubmitForm =>
          if Assets.showForm st then Some (Assets.handleSubmit st) else None
      | ClickEdit row =>
          match nth_error l row with
          | Some asset => Some (Assets.handleEdit asset st)
          | None => None
          end
      | ClickDelete row confirmed =>
          match nth_error l row with
          | Some asset =>
              Some (Assets.handleDelete (optProp asset "id") confirmed st)
          | None => None
          end
      end
  end.

End AssetsPage.

(** ** Vocabulary of the further properties *)

(** An object with exactly these keys, in this order. *)
Definition hasKeys (keys : list string) (v : JsVal) : Prop :=
  exists fs, v = JObj fs /\ map fst fs = keys.

(** A write: what runs when the create, update or delete call settles, and
    the list request that follows a success. *)
Record Write : Type := mkWrite {
  WState : Type;
  onWrite : Outcome -> WState -> Reaction WState;
  refetch : Call
}.

Definition writes : list Write :=
  [mkWrite (Rooms.handleSubmit_k true) getRooms;
   mkWrite (Rooms.handleSubmit_k false) getRooms;
   mkWrite Rooms.handleDelete_k getRooms;
   mkWrite (Assets.handleSubmit_k true) getAssets;
   mkWrite (Assets.handleSubmit_k false) getAssets;
   mkWrite Assets.handleDelete_k getAssets;
   mkWrite Damage.handleSubmit_k getDamageReports;
   mkWrite Damage.handleStatusChange_k getDamageReports;
   mkWrite Damage.handleDelete_k getDamageReports;
   mkWrite Users.handleRoleChange_k listUsers;
   mkWrite Users.handleDeleteUser_k listUsers;
   mkWrite Profile.handleUpdateProfile_k getCurrentUser].

(** A fetch that owns the page's [loading] flag. *)
Record Primary : Type := mkPrimary {
  pfetch : Fetch;
  loadingOf : FState pfetch -> bool
}.

Definition primaryFetches : list Primary :=
  [mkPrimary (fetchOf Rooms.fetchRooms) Rooms.loading;
   mkPrimary (fetchOf (Assets.fetchAssets false)) Assets.loading;
   mkPrimary (fetchOf (Assets.fetchAssets true)) Assets.loading;
   mkPrimary (fetchOf Damage.fetchRooms) Damage.loading;
   mkPrimary (fetchOf Dashboard.fetchDashboardData) Dashboard.loading;
   mkPrimary (fetchOf Profile.fetchCurrentUser) Profile.loading;
   mkPrimary (fetchOf Users.fetchCurrentUser) Users.loading].

(** [null] or [undefined] *)
Definition nullish (v : JsVal) : bool :=
  match v with JUndefined | JNull => true | _ => false end.

(** [user?.role === 'Warden'], the test in front of the User Management
    button and the Total Users card of the dashboard. *)
Definition showsWardenTools (st : Dashboard.State) : bool :=
  strictEq (optProp (Dashboard.user st) "role") (JStr "Warden").

(** The dashboard's controls: Logout, and one button per target. *)
Module DashboardPage.

Definition navTargets (st : Dashboard.State) : list string :=
  ["/assets"; "/rooms"; "/damage-tracking"; "/profile"]
  ++ (if showsWardenTools st then ["/user-management"] else []).

Inductive UI : Type :=
| ClickLogout
| Go (path : string).

Definition fire (e : UI) (st : Dashboard.State)
  : option (Reaction Dashboard.State) :=
  if Dashboard.loading st then None
  else match e with
       | ClickLogout => Some (Dashboard.handleLogout st)
       | Go path =>
           if existsb (String.eqb path) (navTargets st)
           then Some (st, [ENavigate path], []) else None
       end.

End DashboardPage.

Definition dashboardStart : Config Dashboard.State :=
  mounted Dashboard.init Dashboard.mount.

Definition dashboardTask (t : Task Dashboard.State) : Prop :=
  t = Dashboard.fetchDashboardData \/ t = Dashboard.fetchCurrentUser
  \/ t = Await logout Dashboard.handleLogout_k.

Definition dashboardInv (cfg : Config Dashboard.State) : Prop :=
  (Dashboard.user (store cfg) = JNull
   \/ In (Got getCurrentUser (Resolved (Dashboard.user (store cfg))))
         (history cfg))
  /\ Forall dashboardTask (inflight cfg)
  /\ (In (Did (ENavigate "/user-management")) (history cfg) ->
      wardenSeen (history cfg))
  /\ (In (Did (ERemoveItem "user")) (history cfg) ->
      exists d, In (Got logout (Resolved d)) (history cfg)).

(** A Warden's dashboard: summary and identity arrive. *)
Definition dashboardSession : list (Input DashboardPage.UI) :=
  [Settle 0 (Resolved (JObj [("total_assets", JNum 3)]));
   Settle 0 (Resolved (JObj [("id", JNum 1); ("role", JStr "Warden")]))].

(** Every character is white space. *)
Fixpoint blank (s : string) : bool :=
  match s with
  | EmptyString => true
  | String c rest => isSpace c && blank rest
  end.

Definition startsWithSpace (s : string) : bool :=
  match s with String c _ => isSpace c | EmptyString => false end.

Fixpoint endsWithSpace (s : string) : bool :=
  match s with
  | EmptyString => false
  | String c EmptyString => isSpace c
  | String _ rest => endsWithSpace rest
  end.

(** An invariant of a page in three parts: of its state, of the requests
    in flight, and of the calls sent so far. *)
Definition pageInv {S} (stateOk : S -> Prop) (taskOk : Task S -> Prop)
  (callOk : Call -> Prop) (cfg : Config S) : Prop :=
  stateOk (store cfg)
  /\ Forall taskOk (inflight cfg)
  /\ (forall c, In (Sent c) (history cfg) -> callOk c).

(** The Rooms page as mounted; its state, the requests it has in flight
    and the calls it makes. *)
Definition roomsStart : Config Rooms.State := mounted Rooms.init Rooms.mount.

Definition roomsStateOk (st : Rooms.State) : Prop :=
  isArray (Rooms.rooms st) = true
  /\ hasKeys RoomsPage.fieldNames (Rooms.formData st)
  /\ (Rooms.showForm st = false ->
      Rooms.editingRoom st = JNull /\ Rooms.formData st = Rooms.defaultForm).

Definition roomsCall (c : Call) : Prop :=
  c = getRooms
  \/ (exists d, c = createRoom d /\ hasKeys RoomsPage.fieldNames d)
  \/ (exists id d, c = updateRoom id d /\ hasKeys RoomsPage.fieldNames d)
  \/ (exists id, c = deleteRoom id).

Definition roomsTask (t : Task Rooms.State) : Prop :=
  roomsCall (callOf t)
  /\ (t = Rooms.fetchRooms
      \/ (exists b, settle t = Rooms.handleSubmit_k b)
      \/ settle t = Rooms.handleDelete_k).

Definition roomsInv : Config Rooms.State -> Prop :=
  pageInv roomsStateOk roomsTask roomsCall.

(** A session on the Rooms page: the list arrives, the user edits the
    first room, changes its capacity and saves. *)
Definition roomsSession : list (Input RoomsPage.UI) :=
  [Settle 0 (Resolved (JArr [JObj [("id", JNum 7); ("room_number", JStr "101");
                                   ("hostel_name", JStr "North");
                                   ("floor", JNull); ("capacity", JNum 2);
                                   ("asset_count", JNum 4)]]));
   Fire (RoomsPage.ClickEdit 0);
   Fire (RoomsPage.TypeField "capacity" "3");
   Fire RoomsPage.SubmitForm;
   Settle 0 (Resolved JNull)].

(** The same for the Assets page. *)
Definition assetsStart : Config Assets.State :=
  mounted Assets.init Assets.mount.

Definition assetsStateOk (st : Assets.State) : Prop :=
  isArray (Assets.assets st) = true
  /\ hasKeys AssetsPage.fieldNames (Assets.formData st)
  /\ (Assets.showForm st = false ->
      Assets.editingAsset st = JNull
      /\ Assets.formData st = Assets.defaultForm).

Definition assetsCall (c : Call) : Prop :=
  c = getAssets
  \/ (exists d, c = createAsset d /\ hasKeys AssetsPage.fieldNames d)
  \/ (exists id d, c = updateAsset id d /\ hasKeys AssetsPage.fieldNames d)
  \/ (exists id, c = deleteAsset id).

Definition assetsTask (t : Task Assets.State) : Prop :=
  assetsCall (callOf t)
  /\ ((exists b, t = Assets.fetchAssets b)
      \/ (exists b, settle t = Assets.handleSubmit_k b)
      \/ settle t = Assets.handleDelete_k).

Definition assetsInv : Config Assets.State -> Prop :=
  pageInv assetsStateOk assetsTask assetsCall.

(** A session on the Assets page: the list arrives empty, the user opens
    the form, names a table and saves. *)
Definition assetsSession : list (Input AssetsPage.UI) :=
  [Settle 0 (Resolved (JArr []));
   Fire AssetsPage.ToggleForm;
   Fire (AssetsPage.TypeField "name" "Desk");
   Fire (AssetsPage.TypeField "asset_type" "Table");
   Fire AssetsPage.SubmitForm;
   Settle 0 (Resolved JNull)].

(** The sign-in page as mounted ([stored] is what [localStorage] holds). *)
Definition signInStart (stored : option JsVal) : Config SignIn.State :=
  mounted (SignIn.init stored) [].

Definition signInInv (stored : option JsVal) (cfg : Config SignIn.State)
  : Prop :=
  match inflight cfg with
  | [] => Auth.loading (SignIn.auth (store cfg)) = false
  | [t] => Auth.loading (SignIn.auth (store cfg)) = true
           /\ exists u p, t = SignIn.loginTask u p
  | _ => False
  end
  /\ (forall d, In (Sent (login d)) (history cfg) ->
        exists u p, d = JObj [("username", JStr u); ("password", JStr p)]
                    /\ u <> "" /\ p <> "")
  /\ (Auth.storedUser (SignIn.auth (store cfg)) = stored
      \/ exists body d u,
          In (Got (login body) (Resolved d)) (history cfg)
          /\ prop d "user" = Some u
          /\ Auth.storedUser (SignIn.auth (store cfg)) = Some u).

(** The scenario of the specification: warden1 signs in. *)
Definition signInSession : list (Input SignIn.UI) :=
  [Fire (SignIn.TypeUsername "warden1"); Fire (SignIn.TypePassword "secret");
   Fire SignIn.Submit;
   Settle 0 (Resolved (JObj [("user", JObj [("id", JNum 1);
                                            ("role", JStr "Warden")])]))].

(** The reset flow to its end. *)
Definition resetSession : list (Input Forgot.UI) :=
  happyPath
  ++ [Fire (Forgot.TypeNewPassword "abcd");
      Fire (Forgot.TypeConfirmPassword "abcd");
      Fire Forgot.SubmitPassword].

(** What the reset page has sent so far. *)
Definition forgotSentInv (cfg : Config Forgot.State) : Prop :=
  String.length (Forgot.code (store cfg)) <= 6
  /\ (forall e c, In (Sent (verifyResetCode e c)) (history cfg) ->
        c <> "" /\ String.length c <= 6)
  /\ (forall e c p, In (Sent (resetPasswordWithCode e c p)) (history cfg) ->
        verified (history cfg) /\ 4 <= String.length p).

(** Every request of the user-management page other than the identity
    fetch comes after the Warden identity. *)
Definition usersGateInv (cfg : Config Users.State) : Prop :=
  forall c, In (Sent c) (history cfg) ->
            c = getCurrentUser \/ wardenSeen (history cfg).

(** A Warden opens the user-management page and deletes user 2. *)
Definition usersSession : list (Input Users.UI) :=
  [Settle 0 (Resolved (JObj [("id", JNum 1); ("role", JStr "Warden")]));
   Settle 0 (Resolved (JArr [JObj [("id", JNum 1); ("role", JStr "Warden")];
                             JObj [("id", JNum 2); ("role", JStr "Pending")]]));
   Fire (Users.ClickDelete 1 true)].

(** The id argument of a call on one item. *)
Definition idOf (c : Call) : option JsVal :=
  match c with
  | updateUser id _ | deleteUser id
  | updateAsset id _ | deleteAsset id
  | updateRoom id _ | deleteRoom id
  | updateDamageReport id _ | deleteDamageReport id => Some id
  | _ => None
  end.

(** The user a request of the user-management page is aimed at. *)
Definition targetOf (c : Call) : option JsVal :=
  match c with
  | updateUser id _ => Some id
  | deleteUser id => Some id
  | _ => None
  end.

(** * Facts *)

Unset Implicit Arguments.

(** Case analysis over a list of fetches given in extension. *)
Ltac each_fetch H :=
  simpl in H;
  repeat (destruct H as [H | H]; [subst | ]);
  try contradiction.

(** Boolean guards of the rendered controls, as propositions. *)
Ltac bool_facts :=
  repeat match goal with
         | H : _ && _ = true |- _ => apply andb_true_iff in H as [? ?]
         | H : negb _ = true |- _ => apply negb_true_iff in H
         | H : (_ =? _)%Z = true |- _ => apply Z.eqb_eq in H
         end.

(** ** JavaScript values *)

Lemma strictEq_str (v : JsVal) (s : string) :
  strictEq v (JStr s) = true <-> v = JStr s.
Proof.
  destruct v; simpl; split; intros H; try discriminate; try congruence.
  - apply String.eqb_eq in H. now subst.
  - injection H as ->. apply String.eqb_refl.
Qed.

Lemma strictEq_num (v : JsVal) (n : Z) :
  strictEq v (JNum n) = true <-> v = JNum n.
Proof.
  destruct v; simpl; split; intros H; try discriminate; try congruence.
  - apply Z.eqb_eq in H. now subst.
  - injection H as ->. apply Z.eqb_refl.
Qed.

Lemma authFailure_status (response : JsVal) :
  authFailure response = true <->
  optProp response "status" = JNum 401 \/ optProp response "status" = JNum 403.
Proof.
  unfold authFailure. rewrite orb_true_iff, !strictEq_num. reflexivity.
Qed.

Lemma isArray_arrayOrEmpty (data : JsVal) : isArray (arrayOrEmpty data) = true.
Proof.
  unfold arrayOrEmpty. destruct (isArray data) eqn:E; [exact E | reflexivity].
Qed.

(** ** Runs of a page *)

Section PageFacts.

Variables S UI : Type.
Variable fire : UI -> S -> option (Reaction S).

Lemma run_snoc (cfg : Config S) (inputs : list (Input UI)) (i : Input UI) :
  run fire cfg (inputs ++ [i]) =
  match run fire cfg inputs with Some c => next fire c i | None => None end.
Proof.
  revert cfg; induction inputs as [|j rest IH]; intros cfg; simpl.
  - destruct (next fire cfg i); reflexivity.
  - destruct (next fire cfg j); [apply IH | reflexivity].
Qed.

Lemma reachable_refl (start : Config S) : reachable fire start start.
Proof. exists []; reflexivity. Qed.

Lemma reachable_next (start cfg cfg' : Config S) (i : Input UI) :
  reachable fire start cfg -> next fire cfg i = Some cfg' ->
  reachable fire start cfg'.
Proof.
  intros [inputs Hrun] Hnext. exists (inputs ++ [i]).
  rewrite run_snoc, Hrun. exact Hnext.
Qed.

(** Induction over the run: what holds of the mounted page and is kept by
    every input holds in every reachable configuration. *)
Lemma reachable_ind (start : Config S) (P : Config S -> Prop) :
  P start ->
  (forall cfg i cfg', reachable fire start cfg -> P cfg ->
                      next fire cfg i = Some cfg' -> P cfg') ->
  forall cfg, reachable fire start cfg -> P cfg.
Proof.
  intros Hstart Hstep cfg [inputs Hrun]. revert cfg Hrun.
  induction inputs as [|i rest IH] using rev_ind; intros cfg Hrun.
  - simpl in Hrun. injection Hrun as <-. exact Hstart.
  - rewrite run_snoc in Hrun.
    destruct (run fire start rest) as [mid|] eqn:Hmid; [|discriminate].
    apply (Hstep mid i cfg);
      [exists rest; exact Hmid | apply IH; reflexivity | exact Hrun].
Qed.

End PageFacts.

(** ** Submitting a form *)

(** C1 (as amended).  In the rooms and assets controllers a successful
    submit hides the form, clears the editing target, puts the form fields
    back to their defaults and issues the list fetch, whose response
    replaces the list.  The damage-report controller has no form-visibility
    or editing-target state: its successful submit clears the description
    only, keeps the selected room and asset type, and issues the
    damage-report fetch, whose response replaces the list. *)
Theorem C1_submit_success :
  (forall st : Rooms.State,
      exists c k,
        Rooms.handleSubmit st = (st, [EPreventDefault], [Await c k])
        /\ c = (if truthy (Rooms.editingRoom st)
                then updateRoom (optProp (Rooms.editingRoom st) "id")
                                (Rooms.formData st)
                else createRoom (Rooms.formData st))
        /\ forall d st1,
            let r := k (Resolved d) st1 in
            Rooms.showForm (stateOf r) = false
            /\ Rooms.editingRoom (stateOf r) = JNull
            /\ Rooms.formData (stateOf r) = Rooms.defaultForm
            /\ spawnedOf r = [Rooms.fetchRooms]
            /\ callOf Rooms.fetchRooms = getRooms
            /\ forall d' st2,
                let r' := settle Rooms.fetchRooms (Resolved d') st2 in
                Rooms.rooms (stateOf r') = arrayOrEmpty d'
                /\ Rooms.showForm (stateOf r') = Rooms.showForm st2
                /\ Rooms.editingRoom (stateOf r') = Rooms.editingRoom st2
                /\ Rooms.formData (stateOf r') = Rooms.formData st2)
  /\ (forall st : Assets.State,
      exists c k,
        Assets.handleSubmit st = (st, [EPreventDefault], [Await c k])
        /\ c = (if truthy (Assets.editingAsset st)
                then updateAsset (optProp (Assets.editingAsset st) "id")
                                 (Assets.formData st)
                else createAsset (Assets.formData st))
        /\ forall d st1,
            let r := k (Resolved d) st1 in
            Assets.showForm (stateOf r) = false
            /\ Assets.editingAsset (stateOf r) = JNull
            /\ Assets.formData (stateOf r) = Assets.defaultForm
            /\ spawnedOf r = [Assets.fetchAssets true]
            /\ callOf (Assets.fetchAssets true) = getAssets
            /\ forall d' st2,
                let r' := settle (Assets.fetchAssets true) (Resolved d') st2 in
                Assets.assets (stateOf r') = arrayOrEmpty d'
                /\ Assets.showForm (stateOf r') = Assets.showForm st2
                /\ Assets.editingAsset (stateOf r') = Assets.editingAsset st2
                /\ Assets.formData (stateOf r') = Assets.formData st2)
  /\ (forall st : Damage.State,
        requestsOf (Damage.handleSubmit st) = []
        \/ exists c k,
            Damage.handleSubmit st = (st, [EPreventDefault], [Await c k])
            /\ c = createDamageReport
                     (JObj [("room", JStr (Damage.selectedRoom st));
                            ("asset_type", JStr (Damage.assetType st));
                            ("description",
                             JStr (trim (Damage.description st)))])
            /\ forall d st1,
                let r := k (Resolved d) st1 in
                Damage.description (stateOf r) = ""
                /\ Damage.selectedRoom (stateOf r) = Damage.selectedRoom st1
                /\ Damage.assetType (stateOf r) = Damage.assetType st1
                /\ spawnedOf r = [Damage.fetchDamageReports]
                /\ callOf Damage.fetchDamageReports = getDamageReports
                /\ forall d' st2,
                    let r' :=
                      settle Damage.fetchDamageReports (Resolved d') st2 in
                    Damage.damageReports (stateOf r') = arrayOrEmpty d'
                    /\ damageFields (stateOf r') = damageFields st2).
Proof.
  split; [|split].
  - intros st. unfold Rooms.handleSubmit.
    destruct (truthy (Rooms.editingRoom st)); eexists; eexists;
      (split; [reflexivity|]); (split; [reflexivity|]);
      intros d st1; cbn; repeat split.
  - intros st. unfold Assets.handleSubmit.
    destruct (truthy (Assets.editingAsset st)); eexists; eexists;
      (split; [reflexivity|]); (split; [reflexivity|]);
      intros d st1; cbn; repeat split.
  - intros st. unfold Damage.handleSubmit.
    destruct (Damage.selectedRoom st =? ""); [left; reflexivity|].
    destruct (trim (Damage.description st) =? ""); [left; reflexivity|].
    right. eexists; eexists.
    split; [reflexivity|]. split; [reflexivity|].
    intros d st1; cbn; repeat split.
Qed.

(** C1, the claim as stated, at the damage-report controller: after a
    successful submit the selected room and the asset type are still the
    ones the user chose, so the form fields are not the defaults. *)
Lemma C1_damage_submit_keeps_selection :
  let st := Damage.mkState (JArr []) (JArr []) "5" "Table" "Broken leg" false in
  exists c k,
    Damage.handleSubmit st = (st, [EPreventDefault], [Await c k])
    /\ damageFields (stateOf (k (Resolved JNull) st)) = ("5", "Table", "")
    /\ damageFields (stateOf (k (Resolved JNull) st)) <> damageDefaults.
Proof.
  cbn. eexists; eexists. split; [reflexivity|]. split; [reflexivity|].
  cbn. discriminate.
Qed.

(** ** Deleting and cancelling *)

(** C7.  When the confirmation dialog returns false, [handleDelete] of
    every resource controller only asks the question: no request is issued
    and the state, list included, is the one it started from. *)
Theorem C7_declined_delete_changes_nothing :
  (forall id (st : Rooms.State),
      let r := Rooms.handleDelete id false st in
      stateOf r = st /\ spawnedOf r = [] /\ requestsOf r = []
      /\ Rooms.rooms (stateOf r) = Rooms.rooms st
      /\ effectsOf r =
           [EConfirm (MVal (JStr "Are you sure you want to delete this room?"))])
  /\ (forall id (st : Assets.State),
      let r := Assets.handleDelete id false st in
      stateOf r = st /\ spawnedOf r = [] /\ requestsOf r = []
      /\ Assets.assets (stateOf r) = Assets.assets st
      /\ effectsOf r =
           [EConfirm (MVal (JStr "Are you sure you want to delete this asset?"))])
  /\ (forall id roomNumber assetType (st : Damage.State),
      let r := Damage.handleDelete id roomNumber assetType false st in
      stateOf r = st /\ spawnedOf r = [] /\ requestsOf r = []
      /\ Damage.damageReports (stateOf r) = Damage.damageReports st
      /\ effectsOf r =
           [EConfirm (MTemplate "Delete damage report for " assetType
                                " in Room " roomNumber "?")]).
Proof.
  repeat split.
Qed.

(** The scenario of the specification: room 5, dialog declined. *)
Example declined_delete_room_5 (st : Rooms.State) :
  requestsOf (Rooms.handleDelete (JNum 5) false st) = []
  /\ Rooms.rooms (stateOf (Rooms.handleDelete (JNum 5) false st)) = Rooms.rooms st.
Proof. split; reflexivity. Qed.

(** The same click, confirmed, does call the delete endpoint. *)
Example confirmed_delete_room_5 (st : Rooms.State) :
  requestsOf (Rooms.handleDelete (JNum 5) true st) = [deleteRoom (JNum 5)].
Proof. reflexivity. Qed.

(** C8.  [handleCancel] of the rooms and of the assets controller (the
    damage-report hook exposes no cancel) issues no request, sets the form
    fields to their defaults, clears the editing target and hides the
    form; list and loading flag are untouched. *)
Theorem C8_cancel_restores_defaults :
  (forall st : Rooms.State,
      let r := Rooms.handleCancel st in
      spawnedOf r = [] /\ requestsOf r = [] /\ effectsOf r = []
      /\ Rooms.formData (stateOf r) =
           JObj [("room_number", JStr ""); ("hostel_name", JStr "");
                 ("floor", JStr ""); ("capacity", JNum 2)]
      /\ Rooms.formData (stateOf r) = Rooms.formData Rooms.init
      /\ Rooms.editingRoom (stateOf r) = JNull
      /\ Rooms.showForm (stateOf r) = false
      /\ Rooms.rooms (stateOf r) = Rooms.rooms st
      /\ Rooms.loading (stateOf r) = Rooms.loading st)
  /\ (forall st : Assets.State,
      let r := Assets.handleCancel st in
      spawnedOf r = [] /\ requestsOf r = [] /\ effectsOf r = []
      /\ Assets.formData (stateOf r) =
           JObj [("name", JStr ""); ("asset_type", JStr "Bed");
                 ("total_quantity", JNum 1); ("condition", JStr "Good")]
      /\ Assets.formData (stateOf r) = Assets.formData Assets.init
      /\ Assets.editingAsset (stateOf r) = JNull
      /\ Assets.showForm (stateOf r) = false
      /\ Assets.assets (stateOf r) = Assets.assets st
      /\ Assets.loading (stateOf r) = Assets.loading st).
Proof.
  repeat split.
Qed.

(** Cancelling after the user edited a room and typed into the form. *)
Example cancel_after_edit :
  let room := JObj [("id", JNum 7); ("room_number", JStr "A-201");
                    ("hostel_name", JStr "North"); ("floor", JNull);
                    ("capacity", JNum 3)] in
  let st1 := stateOf (Rooms.handleEdit room Rooms.init) in
  let st2 := stateOf (Rooms.handleChange "capacity" (JStr "4") st1) in
  Rooms.formData st2 =
    JObj [("room_number", JStr "A-201"); ("hostel_name", JStr "North");
          ("floor", JStr ""); ("capacity", JStr "4")]
  /\ Rooms.showForm st2 = true
  /\ stateOf (Rooms.handleCancel st2) =
       Rooms.mkState (JArr []) true false JNull Rooms.defaultForm.
Proof. repeat split. Qed.

(** ** Fetching *)


(** C10.  Whatever the outcome of a list fetch of a resource controller,
    the list state it leaves is an array: the response body when that is
    an array, the empty list for any other body and for every error. *)
Theorem C10_list_state_is_array (h : ListFetch) (o : Outcome)
  (st : FState (fetch h)) :
  In h listFetches ->
  isArray (listAfter h o st) = true
  /\ match o with
     | Resolved data =>
         listAfter h o st = (if isArray data then data else JArr [])
     | Rejected _ => listAfter h o st = JArr []
     end.
Proof.
  intros Hin. each_fetch Hin;
    destruct o as [data | response]; cbn;
    (split; [try apply isArray_arrayOrEmpty; reflexivity | reflexivity]).
Qed.

Lemma C10_list_state_is_array_witness :
  In (mkListFetch (fetchOf Damage.fetchDamageReports) Damage.damageReports)
     listFetches
  /\ Damage.damageReports
       (stateOf (Damage.fetchDamageReports_k
                   (Resolved (JObj [("detail", JStr "Not found.")]))
                   Damage.init)) = JArr []
  /\ Rooms.rooms
       (stateOf (Rooms.fetchRooms_k (Rejected JUndefined) Rooms.init)) = JArr [].
Proof.
  split; [simpl; tauto|]. split.
  - apply (C10_list_state_is_array
             (mkListFetch (fetchOf Damage.fetchDamageReports)
                          Damage.damageReports)
             (Resolved (JObj [("detail", JStr "Not found.")])) Damage.init).
    simpl; tauto.
  - apply (C10_list_state_is_array
             (mkListFetch (fetchOf Rooms.fetchRooms) Rooms.rooms)
             (Rejected JUndefined) Rooms.init).
    simpl; tauto.
Defined.

(** The user list of the user-management page is no resource-controller
    list: it stores the body as it comes. *)
Example user_list_is_stored_unchecked :
  Users.allUsers
    (stateOf (Users.fetchAllUsers_k (Resolved (JStr "oops")) Users.init))
  = JStr "oops".
Proof. reflexivity. Qed.

(** C2 (as amended).  Each protected page issues on mount a fetch that
    answers a 401 or 403 by navigating to the sign-in screen: the room
    list, the asset list, the dashboard summary, and the current identity
    on the profile and user-management pages.  The damage-report list, the
    dashboard's own identity fetch and the user list only log the error
    and never navigate. *)
Theorem C2_auth_failure_redirects (response : JsVal) (status : Z) :
  optProp response "status" = JNum status ->
  (status = 401 \/ status = 403)%Z ->
  (forall f, In f gatedFetches -> redirectsToSignIn f response)
  /\ (forall page fetches,
        In (page, fetches) protectedPages ->
        exists f, In f fetches /\ In f gatedFetches)
  /\ (forall f, In f loggingFetches ->
        forall o st, navigatesTo "/signin" (onSettle f o st) = false).
Proof.
  intros Hstatus Hcode.
  assert (Hauth : authFailure response = true)
    by (apply authFailure_status; destruct Hcode; subst; tauto).
  split; [|split].
  - intros f Hin st. each_fetch Hin; revert st; cbn; intros st;
      unfold navigatesTo; cbn; rewrite Hauth; reflexivity.
  - intros page fetches Hin. each_fetch Hin;
      injection Hin as <- <-; eexists; (split; [left; reflexivity|]);
      simpl; tauto.
  - intros f Hin o st.
    each_fetch Hin; revert st; cbn; intros st; destruct o; reflexivity.
Qed.

Lemma C2_auth_failure_redirects_witness :
  navigatesTo "/signin"
    (Dashboard.fetchDashboardData_k
       (Rejected (JObj [("status", JNum 403); ("data", JNull)]))
       Dashboard.init) = true.
Proof.
  apply (proj1 (C2_auth_failure_redirects
                  (JObj [("status", JNum 403); ("data", JNull)]) 403%Z
                  eq_refl (or_intror eq_refl))
               (fetchOf Dashboard.fetchDashboardData)).
  simpl; tauto.
Defined.

(** C2, the claim as stated, at the damage-report list: a 401 answer to
    [getDamageReports] does not navigate to the sign-in screen. *)
Lemma C2_damage_reports_401_stays :
  ~ redirectsToSignIn (fetchOf Damage.fetchDamageReports)
      (JObj [("status", JNum 401)]).
Proof.
  intros H. specialize (H Damage.init). discriminate H.
Qed.

(** The dashboard's identity fetch and the user list behave the same. *)
Lemma dashboard_identity_403_stays :
  ~ redirectsToSignIn (fetchOf Dashboard.fetchCurrentUser)
      (JObj [("status", JNum 403)]).
Proof.
  intros H. specialize (H Dashboard.init). discriminate H.
Qed.

Lemma user_list_401_stays :
  ~ redirectsToSignIn (fetchOf Users.fetchAllUsers)
      (JObj [("status", JNum 401)]).
Proof.
  intros H. specialize (H Users.init). discriminate H.
Qed.

(** A failure that is no authentication failure leaves the page where it
    is, also for the gated fetches. *)
Lemma other_failure_stays (f : Fetch) (response : JsVal) (st : FState f) :
  In f gatedFetches -> authFailure response = false ->
  navigatesTo "/signin" (onSettle f (Rejected response) st) = false.
Proof.
  intros Hin Hauth. each_fetch Hin; revert st; cbn; intros st;
    unfold navigatesTo; cbn; rewrite Hauth; reflexivity.
Qed.

(** ** The user-management table *)

Lemma renderRows_Forall2 (current : JsVal) (us : list JsVal) :
  forall rows, Users.renderRows current us = Some rows ->
               Forall2 (fun u cells => Users.renderRow current u = Some cells)
                       us rows.
Proof.
  induction us as [|u rest IH]; simpl; intros rows H.
  - injection H as <-. constructor.
  - destruct (Users.renderRow current u) as [cells|] eqn:Hrow; [|discriminate].
    destruct (Users.renderRows current rest) as [rs|]; [|discriminate].
    injection H as <-. constructor; [exact Hrow | apply IH; reflexivity].
Qed.

Lemma renderRow_cells (current u : JsVal) (cells : Users.RoleCell * Users.ActionCell) :
  Users.renderRow current u = Some cells ->
  exists uid role,
    prop u "id" = Some uid /\ prop u "role" = Some role
    /\ cells = if strictEq uid (optProp current "id")
               then (Users.RoleBadge role, Users.YouLabel)
               else (Users.RoleSelect role uid, Users.DeleteButton uid).
Proof.
  unfold Users.renderRow.
  destruct (prop u "id") as [uid|]; [|discriminate].
  destruct (prop u "role") as [role|]; [|discriminate].
  intros H. injection H as <-. exists uid, role.
  destruct (strictEq uid (optProp current "id")); auto.
Qed.

(** C5.  In the rendered table, a row whose id is the current user's id
    ([u.id === user?.id]) has a static badge as role cell and no delete
    control; every other row has the role selector and the delete button,
    both aimed at that row's id. *)
Theorem C5_self_row (st : Users.State) (us : list JsVal)
  (rows : list (Users.RoleCell * Users.ActionCell)) :
  Users.loading st = false ->
  Users.allUsers st = JArr us ->
  Users.renderRows (Users.user st) us = Some rows ->
  Users.table st = rows
  /\ Forall2
       (fun u cells =>
          exists uid role,
            prop u "id" = Some uid /\ prop u "role" = Some role
            /\ (strictEq uid (optProp (Users.user st) "id") = true ->
                cells = (Users.RoleBadge role, Users.YouLabel)
                /\ Users.interactive (fst cells) = false
                /\ Users.hasDelete (snd cells) = false)
            /\ (strictEq uid (optProp (Users.user st) "id") = false ->
                cells = (Users.RoleSelect role uid, Users.DeleteButton uid)
                /\ Users.interactive (fst cells) = true
                /\ Users.hasDelete (snd cells) = true))
       us rows.
Proof.
  intros Hloaded Hall Hrows. split.
  - unfold Users.table. rewrite Hloaded, Hall, Hrows. reflexivity.
  - apply renderRows_Forall2 in Hrows. clear Hall.
    induction Hrows as [|u cells us' rows' Hrow _ IH]; constructor; [|exact IH].
    apply renderRow_cells in Hrow as (uid & role & Hid & Hrole & ->).
    exists uid, role. split; [exact Hid|]. split; [exact Hrole|].
    split; intros ->; repeat split.
Qed.

(** Ids of the API are numbers, and on numbers [===] is equality. *)
Lemma same_id_iff (n m : Z) :
  strictEq (JNum n) (JNum m) = true <-> n = m.
Proof. simpl. apply Z.eqb_eq. Qed.

Lemma C5_self_row_witness :
  let warden := JObj [("id", JNum 1); ("username", JStr "warden1");
                      ("role", JStr "Warden")] in
  let staff := JObj [("id", JNum 2); ("username", JStr "staff1");
                     ("role", JStr "Inventory Staff")] in
  let st := Users.mkState warden false (JArr [warden; staff]) in
  Users.table st =
    [(Users.RoleBadge (JStr "Warden"), Users.YouLabel);
     (Users.RoleSelect (JStr "Inventory Staff") (JNum 2),
      Users.DeleteButton (JNum 2))].
Proof.
  intros warden staff st.
  apply (C5_self_row st [warden; staff]); reflexivity.
Defined.

(** The table of that page, as rendered. *)
Example table_of_two :
  let warden := JObj [("id", JNum 1); ("role", JStr "Warden")] in
  let staff := JObj [("id", JNum 2); ("role", JStr "Inventory Staff")] in
  Users.table (Users.mkState warden false (JArr [warden; staff]))
  = [(Users.RoleBadge (JStr "Warden"), Users.YouLabel);
     (Users.RoleSelect (JStr "Inventory Staff") (JNum 2),
      Users.DeleteButton (JNum 2))].
Proof. reflexivity. Qed.

(** C9.  The handlers themselves do not protect the current user: for any
    target id, the current user's own included, [handleDeleteUser] issues
    the delete call once the dialog is confirmed and [handleRoleChange]
    issues the role update; what they issue does not depend on who the
    current user is. *)
Theorem C9_handlers_do_not_check_self (st : Users.State) (userId : JsVal)
  (newRole : string) :
  requestsOf (Users.handleDeleteUser userId true st) = [deleteUser userId]
  /\ requestsOf (Users.handleRoleChange userId newRole st)
     = [updateUser userId (JObj [("role", JStr newRole)])]
  /\ (let self := optProp (Users.user st) "id" in
      requestsOf (Users.handleDeleteUser self true st) = [deleteUser self]
      /\ requestsOf (Users.handleRoleChange self newRole st)
         = [updateUser self (JObj [("role", JStr newRole)])])
  /\ (forall current,
         requestsOf (Users.handleDeleteUser userId true (Users.setUser current st))
         = requestsOf (Users.handleDeleteUser userId true st)
         /\ requestsOf (Users.handleRoleChange userId newRole
                          (Users.setUser current st))
            = requestsOf (Users.handleRoleChange userId newRole st)).
Proof.
  repeat split.
Qed.

(** A Warden with id 1 deleting, and demoting, user 1. *)
Example warden_targets_self :
  let warden := JObj [("id", JNum 1); ("role", JStr "Warden")] in
  let st := Users.mkState warden false (JArr [warden]) in
  requestsOf (Users.handleDeleteUser (JNum 1) true st) = [deleteUser (JNum 1)]
  /\ requestsOf (Users.handleRoleChange (JNum 1) "Pending" st)
     = [updateUser (JNum 1) (JObj [("role", JStr "Pending")])]
  /\ Users.fire (Users.ClickDelete 0 true) st = None
  /\ Users.fire (Users.SelectRole 0 "Pending") st = None.
Proof. repeat split. Qed.

(** ** The new-password form *)

(** C6.  [handleResetPassword] issues the reset call exactly when the
    confirmation equals the new password and the new password has at least
    4 characters; otherwise it issues nothing, shows an error toast and
    leaves the state as it is. *)
Theorem C6_client_checks_before_reset (st : Forgot.State) :
  (Forgot.newPassword st <> Forgot.confirmPassword st
   \/ String.length (Forgot.newPassword st) < 4 ->
   requestsOf (Forgot.handleResetPassword st) = []
   /\ existsb isErrorToast (effectsOf (Forgot.handleResetPassword st)) = true
   /\ stateOf (Forgot.handleResetPassword st) = st)
  /\ (Forgot.newPassword st = Forgot.confirmPassword st ->
      4 <= String.length (Forgot.newPassword st) ->
      requestsOf (Forgot.handleResetPassword st)
      = [resetPasswordWithCode (Forgot.email st) (Forgot.code st)
                               (Forgot.newPassword st)])
  /\ (requestsOf (Forgot.handleResetPassword st) <> [] ->
      Forgot.newPassword st = Forgot.confirmPassword st
      /\ 4 <= String.length (Forgot.newPassword st)).
Proof.
  unfold Forgot.handleResetPassword.
  destruct (String.eqb_spec (Forgot.newPassword st) (Forgot.confirmPassword st))
    as [Heq | Hne]; cbn [negb].
  - destruct (Nat.ltb_spec (String.length (Forgot.newPassword st)) 4)
      as [Hshort | Hlong].
    + split; [intros _; repeat split|].
      split; [intros _ Hlong; lia|].
      intros Hreq. now elim Hreq.
    + split; [intros [Hne | Hshort]; [contradiction | lia]|].
      split; [intros _ _; reflexivity|].
      intros _. split; assumption.
  - split; [intros _; repeat split|].
    split; [intros Heq; contradiction|].
    intros Hreq. now elim Hreq.
Qed.

Lemma C6_client_checks_before_reset_witness :
  let st := Forgot.mkState 3 "a@b.c" "123456" "secret" "secres" false in
  requestsOf (Forgot.handleResetPassword st) = []
  /\ existsb isErrorToast (effectsOf (Forgot.handleResetPassword st)) = true
  /\ stateOf (Forgot.handleResetPassword st) = st.
Proof.
  intros st. apply (proj1 (C6_client_checks_before_reset st)).
  left. discriminate.
Defined.

Example short_password_is_refused :
  let st := Forgot.mkState 3 "a@b.c" "123456" "abc" "abc" false in
  Forgot.handleResetPassword st =
    (st, [EPreventDefault;
          EToast (MVal (JStr "Password must be at least 4 characters"))
                 (Some "error")], []).
Proof. reflexivity. Qed.

Example matching_password_is_sent :
  let st := Forgot.mkState 3 "a@b.c" "123456" "abcd" "abcd" false in
  requestsOf (Forgot.handleResetPassword st)
  = [resetPasswordWithCode "a@b.c" "123456" "abcd"].
Proof. reflexivity. Qed.

(** ** What a step adds to the history *)

Section History.

Variable S : Type.
Variables (hist : list Event) (rest : list (Task S)) (r : Reaction S).

Lemma got_absorb (c : Call) (o : Outcome) :
  In (Got c o) (history (absorb hist rest r)) <-> In (Got c o) hist.
Proof.
  unfold absorb; simpl. rewrite !in_app_iff, !in_map_iff.
  split; [|tauto].
  intros [H | [(e & He & _) | (c' & Hc & _)]];
    [exact H | discriminate | discriminate].
Qed.

Lemma sent_absorb (c : Call) :
  In (Sent c) (history (absorb hist rest r)) <->
  In (Sent c) hist \/ In c (requestsOf r).
Proof.
  unfold absorb; simpl. rewrite !in_app_iff, !in_map_iff. split.
  - intros [H | [(e & He & _) | (c' & Hc & Hin)]];
      [left; exact H | discriminate | right].
    injection Hc as ->. exact Hin.
  - intros [H | H]; [left; exact H | right; right].
    exists c; split; [reflexivity | exact H].
Qed.

Lemma did_absorb (e : Effect) :
  In (Did e) (history (absorb hist rest r)) <->
  In (Did e) hist \/ In e (effectsOf r).
Proof.
  unfold absorb; simpl. rewrite !in_app_iff, !in_map_iff. split.
  - intros [H | [(e' & He & Hin) | (c' & Hc & _)]];
      [left; exact H | right | discriminate].
    injection He as ->. exact Hin.
  - intros [H | H]; [left; exact H | right; left].
    exists e; split; [reflexivity | exact H].
Qed.

End History.

Lemma Forall_dropNth {A} (P : A -> Prop) (l : list A) :
  Forall P l -> forall n, Forall P (dropNth n l).
Proof.
  induction 1 as [|x l Hx Hl IH]; intros n; destruct n; simpl;
    try constructor; auto.
Qed.

Lemma Forall_nth_error {A} (P : A -> Prop) (l : list A) (n : nat) (x : A) :
  Forall P l -> nth_error l n = Some x -> P x.
Proof.
  intros HP Hn. apply nth_error_In in Hn.
  rewrite Forall_forall in HP. apply HP, Hn.
Qed.

(** ** The role gate of the user-management page *)

Lemma usersTask_settle (t : Task Users.State) (o : Outcome) (st : Users.State) :
  usersTask t ->
  callOf t <> getCurrentUser
  /\ Forall usersTask (spawnedOf (settle t o st)).
Proof.
  intros [-> | [(id & data & ->) | (id & ->)]];
    (split; [discriminate|]); destruct o; cbn;
    first [ constructor; [left; reflexivity | constructor] | constructor ].
Qed.

Lemma users_fire_spawns (e : Users.UI) (st : Users.State) (r : Reaction Users.State) :
  Users.fire e st = Some r -> Forall usersTask (spawnedOf r).
Proof.
  destruct e as [|row newRole|row confirmed]; cbn.
  - destruct (Users.loading st); [discriminate|].
    intros H; injection H as <-. constructor.
  - destruct (nth_error (Users.table st) row) as [[[role|value target] action]|];
      try discriminate.
    match goal with
    | |- (if ?b then _ else _) = _ -> _ => destruct b; [|discriminate]
    end.
    intros H; injection H as <-. cbn. constructor; [|constructor].
    right; left. eexists; eexists; reflexivity.
  - destruct (nth_error (Users.table st) row) as [[role [target|]]|];
      try discriminate.
    intros H; injection H as <-. destruct confirmed; cbn;
      constructor; [|constructor].
    right; right. eexists; reflexivity.
Qed.

Lemma users_fire_empty_table (e : Users.UI) (st : Users.State)
  (r : Reaction Users.State) :
  Users.table st = [] -> Users.fire e st = Some r ->
  Users.loading st = false /\ r = (st, [ENavigate "/dashboard"], []).
Proof.
  intros Htable. destruct e as [|row newRole|row confirmed]; cbn.
  - destruct (Users.loading st); [discriminate|].
    intros H; injection H as <-. split; reflexivity.
  - rewrite Htable. destruct row; discriminate.
  - rewrite Htable. destruct row; discriminate.
Qed.

Lemma usersInv_start : usersInv usersStart.
Proof. left. repeat split. Qed.

Lemma usersInv_next (cfg cfg' : Config Users.State) (i : Input Users.UI) :
  usersInv cfg -> next Users.fire cfg i = Some cfg' -> usersInv cfg'.
Proof.
  intros [(Hfl & Hload & Hall & Hhist) | [(Hfl & Hall & Hsent & o0 & Huniq & Hout)
         | (Htasks & d & Hrole & Hgot & Huniq)]] Hnext.
  - (* waiting for the identity *)
    destruct i as [e | n o]; cbn in Hnext.
    + destruct (Users.fire e (store cfg)) as [r|] eqn:Hfire; [|discriminate].
      apply users_fire_empty_table in Hfire as [Hl _];
        [congruence | unfold Users.table; now rewrite Hload].
    + rewrite Hfl in Hnext.
      destruct n as [|n]; [|destruct n; discriminate].
      cbn in Hnext. injection Hnext as <-. rewrite Hhist.
      destruct o as [data | response]; cbn.
      * destruct (prop data "role") as [role|] eqn:Hprop.
        -- destruct (strictEq role (JStr "Warden")) eqn:Hw; cbn.
           ++ right; right.
              split; [constructor; [left; reflexivity | constructor]|].
              apply strictEq_str in Hw. subst role.
              exists data. split; [exact Hprop|]. cbn. split; [tauto|].
              intros o' [H | [H | [H | []]]]; try discriminate.
              now injection H as <-.
           ++ right; left. cbn. repeat split; try assumption.
              ** intros [H | [H | [H | []]]]; discriminate.
              ** exists (Resolved data). split.
                 --- intros o' [H | [H | [H | []]]]; try discriminate.
                     now injection H as <-.
                 --- intros d Hd. injection Hd as <-. split.
                     +++ intros Heq. rewrite Hprop in Heq. injection Heq as ->.
                         discriminate Hw.
                     +++ intros _. tauto.
        -- right; left. cbn. repeat split; try assumption.
           ** intros [H | [H | [H | []]]]; discriminate.
           ** exists (Resolved data). split.
              --- intros o' [H | [H | [H | []]]]; try discriminate.
                  now injection H as <-.
              --- intros d Hd. injection Hd as <-. rewrite Hprop.
                  split; [discriminate | intros H; now elim H].
      * right; left. cbn. repeat split; try assumption.
        -- destruct (authFailure response); cbn;
             intros H; repeat (destruct H as [H | H]; try discriminate); exact H.
        -- exists (Rejected response). split.
           ++ destruct (authFailure response); cbn;
                intros o' H;
                repeat (destruct H as [H | H]; try discriminate);
                try contradiction; now injection H as <-.
           ++ intros d Hd. discriminate.
  - (* turned away *)
    destruct i as [e | n o]; cbn in Hnext.
    + destruct (Users.fire e (store cfg)) as [r|] eqn:Hfire; [|discriminate].
      injection Hnext as <-.
      apply users_fire_empty_table in Hfire as [Hl ->].
      * right; left. cbn. rewrite app_nil_r. repeat split; try assumption.
        -- rewrite in_app_iff. intros [H | [H | []]]; [auto | discriminate].
        -- exists o0. split.
           ++ intros o' H. apply in_app_iff in H as [H | [H | []]];
                [auto | discriminate].
           ++ intros d0 Hd. destruct (Hout d0 Hd) as [H1 H2].
              split; [exact H1|]. intros Hn. apply in_app_iff. left. auto.
      * unfold Users.table. rewrite Hall.
        destruct (Users.loading (store cfg)); reflexivity.
    + rewrite Hfl in Hnext. destruct n; discriminate.
  - (* admitted as Warden *)
    right; right.
    destruct i as [e | n o]; cbn in Hnext.
    + destruct (Users.fire e (store cfg)) as [r|] eqn:Hfire; [|discriminate].
      injection Hnext as <-. split.
      * cbn. apply Forall_app. split; [exact Htasks|].
        eapply users_fire_spawns; eassumption.
      * exists d. split; [exact Hrole|]. split.
        -- apply got_absorb. exact Hgot.
        -- intros o' H. apply got_absorb in H. auto.
    + destruct (nth_error (inflight cfg) n) as [t|] eqn:Hnth; [|discriminate].
      injection Hnext as <-.
      pose proof (Forall_nth_error _ _ _ _ Htasks Hnth) as Ht.
      destruct (usersTask_settle t o (store cfg) Ht) as [Hcall Hspawn].
      split.
      * cbn. apply Forall_app. split; [apply Forall_dropNth; exact Htasks|].
        exact Hspawn.
      * exists d. split; [exact Hrole|]. split.
        -- apply got_absorb. apply in_app_iff. left. exact Hgot.
        -- intros o' H. apply got_absorb in H.
           apply in_app_iff in H as [H | [H | []]]; [auto|].
           injection H as H _. congruence.
Qed.

Lemma usersInv_reachable (cfg : Config Users.State) :
  reachable Users.fire usersStart cfg -> usersInv cfg.
Proof.
  apply reachable_ind.
  - exact usersInv_start.
  - intros c i c' _ Hinv Hnext. exact (usersInv_next c c' i Hinv Hnext).
Qed.

(** C4.  On the user-management page, once the identity fetch has come
    back with a role other than ['Warden'] the page has navigated to the
    dashboard and no user-list request is ever issued; a user-list request
    is issued only after the identity fetch came back with role
    ['Warden'].  The continuation of the identity fetch decides it: it
    navigates and issues nothing, or issues the user-list fetch. *)
Theorem C4_role_gate (cfg : Config Users.State) :
  reachable Users.fire usersStart cfg ->
  (forall d role,
      In (Got getCurrentUser (Resolved d)) (history cfg) ->
      prop d "role" = Some role -> role <> JStr "Warden" ->
      In (Did (ENavigate "/dashboard")) (history cfg)
      /\ ~ In (Sent listUsers) (history cfg))
  /\ (In (Sent listUsers) (history cfg) -> wardenSeen (history cfg))
  /\ (forall d role st,
        prop d "role" = Some role ->
        let r := Users.fetchCurrentUser_k (Resolved d) st in
        if strictEq role (JStr "Warden")
        then requestsOf r = [listUsers] /\ navigatesTo "/dashboard" r = false
        else requestsOf r = [] /\ navigatesTo "/dashboard" r = true).
Proof.
  intros Hreach. apply usersInv_reachable in Hreach.
  split; [|split].
  - intros d role Hgot Hrole Hnot.
    destruct Hreach as [(_ & _ & _ & Hhist) | [(_ & _ & Hsent & o & Huniq & Hout)
           | (_ & d' & Hrole' & _ & Huniq)]].
    + rewrite Hhist in Hgot. destruct Hgot as [H | []]; discriminate.
    + pose proof (Huniq _ Hgot) as <-.
      destruct (Hout d eq_refl) as [_ Hnav].
      split; [apply Hnav; congruence | exact Hsent].
    + pose proof (Huniq _ Hgot) as Heq. injection Heq as ->.
      rewrite Hrole in Hrole'. injection Hrole' as ->. contradiction.
  - intros Hsent.
    destruct Hreach as [(_ & _ & _ & Hhist) | [(_ & _ & Hnone & _)
           | (_ & d' & Hrole' & Hgot & _)]].
    + rewrite Hhist in Hsent. destruct Hsent as [H | []]; discriminate.
    + contradiction.
    + exists d'. split; assumption.
  - intros d role st Hrole. cbn. rewrite Hrole.
    destruct (strictEq role (JStr "Warden")); split; reflexivity.
Qed.

Lemma C4_role_gate_witness :
  let staff := JObj [("id", JNum 2); ("username", JStr "staff1");
                     ("role", JStr "Inventory Staff")] in
  exists cfg,
    run Users.fire usersStart [Settle 0 (Resolved staff)] = Some cfg
    /\ In (Did (ENavigate "/dashboard")) (history cfg)
    /\ ~ In (Sent listUsers) (history cfg).
Proof.
  intros staff. eexists. split; [reflexivity|].
  refine (proj1 (C4_role_gate _ _) staff (JStr "Inventory Staff") _ _ _).
  - exists [Settle 0 (Resolved staff)]. reflexivity.
  - cbn. tauto.
  - reflexivity.
  - discriminate.
Defined.

(** A Warden is let in, and the list is fetched. *)
Example warden_is_admitted :
  let warden := JObj [("id", JNum 1); ("role", JStr "Warden")] in
  option_map (fun cfg => (map (@callOf _) (inflight cfg), history cfg))
    (run Users.fire usersStart [Settle 0 (Resolved warden)])
  = Some ([listUsers],
          [Sent getCurrentUser; Got getCurrentUser (Resolved warden);
           Sent listUsers]).
Proof. reflexivity. Qed.

(** A body that is [null] has no role to read: the page neither navigates
    nor fetches the list. *)
Example null_identity :
  Users.fetchCurrentUser_k (Resolved JNull) Users.init
  = (Users.mkState JNull false (JArr []),
     [EConsoleError "Error fetching user:"], []).
Proof. reflexivity. Qed.

(** ** The password-reset flow *)

Lemma verified_absorb {S} (hist : list Event) (rest : list (Task S))
  (r : Reaction S) :
  verified (history (absorb hist rest r)) <-> verified hist.
Proof.
  unfold verified. split; intros (e & c & d & H); exists e, c, d;
    apply got_absorb in H || apply got_absorb; exact H.
Qed.

Lemma verified_app (hist more : list Event) :
  verified hist -> verified (hist ++ more).
Proof.
  intros (e & c & d & H). exists e, c, d. apply in_app_iff. now left.
Qed.

Lemma forgotInv_start : forgotInv forgotStart.
Proof.
  split; [discriminate|]. cbn. split; [reflexivity | now left].
Qed.


Lemma forgotInv_fire (cfg : Config Forgot.State) (e : Forgot.UI)
  (r : Reaction Forgot.State) :
  forgotInv cfg -> Forgot.fire e (store cfg) = Some r ->
  forgotInv (absorb (history cfg) (inflight cfg) r).
Proof.
  intros [Hver Hfl] Hfire.
  destruct cfg as [st fl hist]; cbn [store inflight history] in *.
  assert (Hkeep : forall r', Forgot.step (stateOf r') = Forgot.step st ->
                             Forgot.step (stateOf r') = 3%Z ->
                             verified (history (absorb hist fl r'))).
  { intros r' Hsame H3. apply verified_absorb, Hver. congruence. }
  unfold Forgot.fire in Hfire.
  destruct e;
    match type of Hfire with
    | (if ?b then _ else _) = _ => destruct b eqn:Hguard; [|discriminate]
    end;
    injection Hfire as <-; bool_facts.
  - (* typing the email *)
    split; [apply Hkeep; reflexivity|].
    cbn. rewrite app_nil_r. exact Hfl.
  - (* submitting the email *)
    split; [apply Hkeep; reflexivity|].
    cbn. destruct fl as [|t [|t' fl]]; cbn.
    + split; [reflexivity|]. left. eexists. split; [reflexivity | assumption].
    + destruct Hfl as [Hl _]. congruence.
    + contradiction.
  - (* typing the code *)
    split; [apply Hkeep; reflexivity|].
    cbn. rewrite app_nil_r. exact Hfl.
  - (* submitting the code *)
    split; [apply Hkeep; reflexivity|].
    cbn. destruct fl as [|t [|t' fl]]; cbn.
    + split; [reflexivity|]. right; left. eexists; eexists.
      split; [reflexivity | right; assumption].
    + destruct Hfl as [Hl _]. congruence.
    + contradiction.
  - (* change email *)
    split; [cbn; discriminate|].
    cbn. rewrite app_nil_r. destruct fl as [|t [|t' fl]]; cbn.
    + destruct Hfl as [Hl _]. split; [exact Hl | now left].
    + destruct Hfl as [Hl [(em & -> & Hs) | [(em & c & -> & Hs)
                                             | (em & c & p & -> & Hs)]]];
        (split; [exact Hl|]); try congruence.
      right; left. exists em, c. split; [reflexivity | now left].
    + contradiction.
  - (* typing the new password *)
    split; [apply Hkeep; reflexivity|].
    cbn. rewrite app_nil_r. exact Hfl.
  - (* typing the confirmation *)
    split; [apply Hkeep; reflexivity|].
    cbn. rewrite app_nil_r. exact Hfl.
  - (* submitting the new password *)
    unfold Forgot.handleResetPassword.
    destruct (negb (Forgot.newPassword st =? Forgot.confirmPassword st));
      [|destruct (String.length (Forgot.newPassword st) <? 4)%nat].
    + split; [apply Hkeep; reflexivity|].
      cbn. rewrite app_nil_r. exact Hfl.
    + split; [apply Hkeep; reflexivity|].
      cbn. rewrite app_nil_r. exact Hfl.
    + split; [apply Hkeep; reflexivity|].
      cbn. destruct fl as [|t [|t' fl]]; cbn.
      * split; [reflexivity|]. right; right. eexists; eexists; eexists.
        split; [reflexivity | assumption].
      * destruct Hfl as [Hl _]. congruence.
      * contradiction.
Qed.

Lemma forgotInv_settle (cfg : Config Forgot.State) (n : nat) (o : Outcome)
  (t : Task Forgot.State) :
  forgotInv cfg -> nth_error (inflight cfg) n = Some t ->
  forgotInv (absorb (history cfg ++ [Got (callOf t) o])
                    (dropNth n (inflight cfg))
                    (settle t o (store cfg))).
Proof.
  intros [Hver Hfl] Hnth.
  destruct cfg as [st fl hist]; cbn [store inflight history] in *.
  destruct fl as [|t0 [|t' fl]]; [destruct n; discriminate | | contradiction].
  destruct n as [|n]; [|destruct n; discriminate].
  cbn in Hnth. injection Hnth as <-. cbn [dropNth].
  destruct Hfl as [Hl [(em & -> & Hs) | [(em & c & -> & Hs)
                                         | (em & c & p & -> & Hs)]]];
    destruct o as [d | response]; unfold forgotInv, absorb; simpl.
  - split; [discriminate|]. split; [reflexivity | right; now left].
  - split; [intros H3; congruence|]. split; [reflexivity | now left].
  - split; [|split; [reflexivity | right; now right]].
    intros _. exists em, c, d. rewrite !in_app_iff. left; right. now left.
  - split; [intros H3; destruct Hs; congruence|].
    split; [reflexivity | destruct Hs; tauto].
  - split; [|split; [reflexivity | right; now right]].
    intros H3. apply verified_app, verified_app, Hver, Hs.
  - split; [|split; [reflexivity | right; now right]].
    intros H3. apply verified_app, verified_app, Hver, Hs.
Qed.

Lemma forgotInv_next (cfg cfg' : Config Forgot.State) (i : Input Forgot.UI) :
  forgotInv cfg -> next Forgot.fire cfg i = Some cfg' -> forgotInv cfg'.
Proof.
  intros Hinv Hnext. destruct i as [e | n o]; cbn in Hnext.
  - destruct (Forgot.fire e (store cfg)) as [r|] eqn:Hfire; [|discriminate].
    injection Hnext as <-. now apply forgotInv_fire with (e := e).
  - destruct (nth_error (inflight cfg) n) as [t|] eqn:Hnth; [|discriminate].
    injection Hnext as <-. now apply forgotInv_settle.
Qed.

Lemma forgotInv_reachable (cfg : Config Forgot.State) :
  reachable Forgot.fire forgotStart cfg -> forgotInv cfg.
Proof.
  apply reachable_ind.
  - exact forgotInv_start.
  - intros c i c' _ Hinv Hnext. exact (forgotInv_next c c' i Hinv Hnext).
Qed.

(** Every input that moves the step indicator is one of three. *)
Lemma forgot_moves (cfg cfg' : Config Forgot.State) (i : Input Forgot.UI) :
  forgotInv cfg -> next Forgot.fire cfg i = Some cfg' ->
  Forgot.step (store cfg') <> Forgot.step (store cfg) ->
  (cause cfg i = Some CodeRequested
   /\ Forgot.step (store cfg) = 1%Z /\ Forgot.step (store cfg') = 2%Z)
  \/ (cause cfg i = Some CodeVerified
      /\ (Forgot.step (store cfg) = 2%Z \/ Forgot.step (store cfg) = 1%Z)
      /\ Forgot.step (store cfg') = 3%Z)
  \/ (cause cfg i = Some EmailChanged
      /\ Forgot.step (store cfg) = 2%Z /\ Forgot.step (store cfg') = 1%Z).
Proof.
  intros [_ Hfl] Hnext Hmove.
  destruct cfg as [st fl hist]; cbn [store inflight history] in *.
  destruct i as [e | n o]; cbn in Hnext.
  - destruct (Forgot.fire e st) as [r|] eqn:Hfire; [|discriminate].
    injection Hnext as <-. cbn [store absorb] in *.
    unfold Forgot.fire in Hfire.
    destruct e;
      match type of Hfire with
      | (if ?b then _ else _) = _ => destruct b eqn:Hguard; [|discriminate]
      end;
      injection Hfire as <-; bool_facts;
      try (exfalso; apply Hmove; reflexivity).
    + right; right. repeat split. assumption.
    + exfalso. apply Hmove. unfold Forgot.handleResetPassword.
      destruct (negb (Forgot.newPassword st =? Forgot.confirmPassword st));
        [|destruct (String.length (Forgot.newPassword st) <? 4)%nat];
        reflexivity.
  - destruct fl as [|t0 [|t' fl]]; [destruct n; discriminate | | contradiction].
    destruct n as [|n]; [|destruct n; discriminate].
    cbn in Hnext. injection Hnext as <-. cbn [store absorb] in *.
    destruct Hfl as [Hl [(em & -> & Hs) | [(em & c & -> & Hs)
                                           | (em & c & p & -> & Hs)]]];
      destruct o as [d | response]; cbn in *;
      try (exfalso; apply Hmove; reflexivity).
    + left. repeat split. exact Hs.
    + right; left. repeat split. tauto.
Qed.

(** C3 (as amended).  From the freshly mounted reset page, step 3 is
    reached only after a verification call has resolved successfully.  The
    step indicator moves only when a request-code call resolves
    successfully (from 1 to 2), when a verify-code call resolves
    successfully (to 3: from 2, or from 1 when Change Email was clicked
    while the verification was in flight), or on Change Email (from 2 to
    1); no other input moves it. *)
Theorem C3_reset_flow (cfg : Config Forgot.State) :
  reachable Forgot.fire forgotStart cfg ->
  (Forgot.step (store cfg) = 3%Z -> verified (history cfg))
  /\ (Forgot.step (store cfg) = 1 \/ Forgot.step (store cfg) = 2
      \/ Forgot.step (store cfg) = 3)%Z
  /\ forall i cfg',
      next Forgot.fire cfg i = Some cfg' ->
      Forgot.step (store cfg') <> Forgot.step (store cfg) ->
      (cause cfg i = Some CodeRequested
       /\ Forgot.step (store cfg) = 1%Z /\ Forgot.step (store cfg') = 2%Z)
      \/ (cause cfg i = Some CodeVerified
          /\ (Forgot.step (store cfg) = 2%Z \/ Forgot.step (store cfg) = 1%Z)
          /\ Forgot.step (store cfg') = 3%Z)
      \/ (cause cfg i = Some EmailChanged
          /\ Forgot.step (store cfg) = 2%Z /\ Forgot.step (store cfg') = 1%Z).
Proof.
  intros Hreach. apply forgotInv_reachable in Hreach.
  split; [exact (proj1 Hreach)|]. split.
  - destruct Hreach as [_ Hfl].
    destruct (inflight cfg) as [|t [|t' fl]]; [tauto | | contradiction].
    destruct Hfl as [_ [(em & _ & Hs) | [(em & c & _ & Hs)
                                         | (em & c & p & _ & Hs)]]]; tauto.
  - intros i cfg'. now apply forgot_moves.
Qed.

Lemma C3_reset_flow_witness :
  exists cfg,
    run Forgot.fire forgotStart happyPath = Some cfg
    /\ Forgot.step (store cfg) = 3%Z
    /\ verified (history cfg).
Proof.
  eexists. split; [reflexivity|]. split; [reflexivity|].
  refine (proj1 (C3_reset_flow _ _) _).
  - exists happyPath. reflexivity.
  - reflexivity.
Defined.

(** C3, the claim as stated: the indicator can move from 1 straight to 3.
    The user submits the code, clicks Change Email before the answer
    arrives, and the answer then sets step 3. *)
Lemma C3_step_1_to_3 :
  exists cfg cfg',
    run Forgot.fire forgotStart changeEmailRace = Some cfg
    /\ next Forgot.fire cfg (Settle 0 (Resolved JNull)) = Some cfg'
    /\ Forgot.step (store cfg) = 1%Z
    /\ Forgot.step (store cfg') = 3%Z
    /\ map (@callOf _) (inflight cfg) = [verifyResetCode "a@b.c" "123456"].
Proof.
  eexists; eexists. split; [reflexivity|]. split; [reflexivity|].
  repeat split.
Qed.

(** * Further properties of the code *)

(** ** Form fields *)

Lemma getField_setField_same (k : string) (v : JsVal)
  (fs : list (string * JsVal)) :
  getField k (setField k v fs) = v.
Proof.
  induction fs as [|[k' v'] rest IH]; simpl.
  - now rewrite String.eqb_refl.
  - destruct (k =? k') eqn:E; simpl.
    + now rewrite String.eqb_refl.
    + now rewrite E.
Qed.

Lemma getField_setField_other (k k' : string) (v : JsVal)
  (fs : list (string * JsVal)) :
  k' <> k -> getField k' (setField k v fs) = getField k' fs.
Proof.
  intros Hne. apply String.eqb_neq in Hne.
  induction fs as [|[k0 v0] rest IH]; simpl.
  - now rewrite Hne.
  - destruct (k =? k0) eqn:E; simpl.
    + apply String.eqb_eq in E. subst k0. now rewrite Hne.
    + destruct (k' =? k0); [reflexivity | exact IH].
Qed.

Lemma keys_setField (k : string) (v : JsVal) (fs : list (string * JsVal)) :
  In k (map fst fs) -> map fst (setField k v fs) = map fst fs.
Proof.
  induction fs as [|[k0 v0] rest IH]; simpl; [contradiction|].
  intros Hin. destruct (k =? k0) eqn:E; simpl.
  - apply String.eqb_eq in E. now subst.
  - f_equal. apply IH. destruct Hin as [H | H]; [|exact H].
    subst k0. now rewrite String.eqb_refl in E.
Qed.

(** X1.  [handleChange] of the rooms and assets forms writes the named
    field and nothing else: reading that field back gives the new value,
    every other field reads as before, the fields keep their order when
    the name is one of them, and the rest of the state is untouched. *)
Theorem handleChange_merges (name : string) (value : JsVal)
  (fs : list (string * JsVal)) :
  (forall l ld sf ed,
      exists fs',
        Rooms.handleChange name value (Rooms.mkState l ld sf ed (JObj fs))
        = (Rooms.mkState l ld sf ed (JObj fs'), [], [])
        /\ getField name fs' = value
        /\ (forall k, k <> name -> getField k fs' = getField k fs)
        /\ (In name (map fst fs) -> map fst fs' = map fst fs))
  /\ (forall l ld sf ed,
      exists fs',
        Assets.handleChange name value (Assets.mkState l ld sf ed (JObj fs))
        = (Assets.mkState l ld sf ed (JObj fs'), [], [])
        /\ getField name fs' = value
        /\ (forall k, k <> name -> getField k fs' = getField k fs)
        /\ (In name (map fst fs) -> map fst fs' = map fst fs)).
Proof.
  split; intros l ld sf ed; exists (setField name value fs);
    (split; [reflexivity|]);
    (split; [apply getField_setField_same|]);
    (split; [intros k Hk; now apply getField_setField_other
            | apply keys_setField]).
Qed.

Lemma handleChange_merges_witness :
  exists fs',
    Rooms.handleChange "capacity" (JStr "4") Rooms.init
    = (Rooms.mkState (JArr []) true false JNull (JObj fs'), [], [])
    /\ getField "capacity" fs' = JStr "4"
    /\ getField "floor" fs' = JStr ""
    /\ map fst fs' = ["room_number"; "hostel_name"; "floor"; "capacity"].
Proof.
  destruct (proj1 (handleChange_merges "capacity" (JStr "4")
                     [("room_number", JStr ""); ("hostel_name", JStr "");
                      ("floor", JStr ""); ("capacity", JNum 2)])
                  (JArr []) true false JNull)
    as (fs' & Heq & Hnew & Hold & Hkeys).
  exists fs'. split; [exact Heq|]. split; [exact Hnew|]. split.
  - rewrite (Hold "floor"); [reflexivity | discriminate].
  - apply Hkeys. simpl. tauto.
Defined.

(** X2.  Edit followed by Submit sends the update for the row that was
    clicked: the call carries that row's [id], and its body the row's four
    form fields (an unset floor as the empty string), not the row's other
    attributes.  Edit, Cancel, Submit sends a create with the default
    form. *)
Theorem edit_then_submit (fs : list (string * JsVal)) :
  (forall st : Rooms.State,
      requestsOf (Rooms.handleSubmit (stateOf (Rooms.handleEdit (JObj fs) st)))
      = [updateRoom (getField "id" fs)
           (JObj [("room_number", getField "room_number" fs);
                  ("hostel_name", getField "hostel_name" fs);
                  ("floor", orElse (getField "floor" fs) (JStr ""));
                  ("capacity", getField "capacity" fs)])]
      /\ requestsOf
           (Rooms.handleSubmit
              (stateOf (Rooms.handleCancel
                          (stateOf (Rooms.handleEdit (JObj fs) st)))))
         = [createRoom Rooms.defaultForm])
  /\ (forall st : Assets.State,
      requestsOf
        (Assets.handleSubmit (stateOf (Assets.handleEdit (JObj fs) st)))
      = [updateAsset (getField "id" fs)
           (JObj [("name", getField "name" fs);
                  ("asset_type", getField "asset_type" fs);
                  ("total_quantity", getField "total_quantity" fs);
                  ("condition", getField "condition" fs)])]
      /\ requestsOf
           (Assets.handleSubmit
              (stateOf (Assets.handleCancel
                          (stateOf (Assets.handleEdit (JObj fs) st)))))
         = [createAsset Assets.defaultForm]).
Proof.
  split; intros st; split; reflexivity.
Qed.

(** ** Writes *)

(** X3.  For every create, update and delete of the rooms, assets,
    damage-report, user-management and profile code: a failed call leaves
    the state exactly as it was, issues no further request and shows one
    error toast; a successful call issues exactly one request, the fetch of
    the list (or identity) it changed, and shows no error toast. *)
Theorem write_outcomes (w : Write) (st : WState w) :
  In w writes ->
  (forall response,
      let r := onWrite w (Rejected response) st in
      stateOf r = st /\ spawnedOf r = []
      /\ List.length (filter isErrorToast (effectsOf r)) = 1)
  /\ (forall data,
      let r := onWrite w (Resolved data) st in
      requestsOf r = [refetch w]
      /\ existsb isErrorToast (effectsOf r) = false).
Proof.
  intros Hin. each_fetch Hin; revert st; cbn; intros st;
    (split; [intros response | intros data]); repeat split.
Qed.

Lemma write_outcomes_witness :
  let st := Users.mkState JNull false (JArr []) in
  stateOf (Users.handleDeleteUser_k (Rejected JUndefined) st) = st
  /\ spawnedOf (Users.handleDeleteUser_k (Rejected JUndefined) st) = []
  /\ List.length (filter isErrorToast
               (effectsOf (Users.handleDeleteUser_k (Rejected JUndefined) st)))
     = 1.
Proof.
  intros st.
  apply (proj1 (write_outcomes (mkWrite Users.handleDeleteUser_k listUsers) st
                  ltac:(simpl; tauto)) JUndefined).
Defined.

(** ** Fetches *)

(** X4.  A fetch that owns a page's [loading] flag clears it however the
    request settles: on success, on any error, and when the body is
    [null] and reading it throws. *)
Theorem loading_always_cleared (p : Primary) (o : Outcome)
  (st : FState (pfetch p)) :
  In p primaryFetches ->
  loadingOf p (stateOf (onSettle (pfetch p) o st)) = false.
Proof.
  intros Hin. each_fetch Hin; revert st; cbn; intros st;
    destruct o as [data | response]; cbn; try reflexivity.
  - destruct (prop data "phone_number"), (prop data "first_name"),
      (prop data "last_name"); reflexivity.
  - destruct (prop data "role") as [role|]; [|reflexivity].
    destruct (strictEq role (JStr "Warden")); reflexivity.
Qed.

Lemma loading_always_cleared_witness :
  Users.loading
    (stateOf (Users.fetchCurrentUser_k (Resolved JNull) Users.init)) = false.
Proof.
  apply (loading_always_cleared
           (mkPrimary (fetchOf Users.fetchCurrentUser) Users.loading)
           (Resolved JNull) Users.init).
  simpl; tauto.
Defined.

(** X5.  A gated fetch navigates to the sign-in screen exactly when the
    request was rejected with [err.response.status] the number 401 or the
    number 403: not on success, not on a 500, not when no response
    arrived. *)
Theorem redirect_exactly_on_auth_failure (f : Fetch) (o : Outcome)
  (st : FState f) :
  In f gatedFetches ->
  navigatesTo "/signin" (onSettle f o st) = true
  <-> exists response,
        o = Rejected response
        /\ (optProp response "status" = JNum 401
            \/ optProp response "status" = JNum 403).
Proof.
  intros Hin.
  assert (Hrej : forall response,
             (authFailure response = true <->
              exists response',
                Rejected response = Rejected response'
                /\ (optProp response' "status" = JNum 401
                    \/ optProp response' "status" = JNum 403))).
  { intros response. rewrite authFailure_status. split.
    - intros H. now exists response.
    - intros (r' & Heq & H). now injection Heq as ->. }
  assert (Hres : forall data,
             ~ exists response : JsVal,
                 Resolved data = Rejected response
                 /\ (optProp response "status" = JNum 401
                     \/ optProp response "status" = JNum 403)).
  { intros data (r' & Heq & _). discriminate. }
  each_fetch Hin; revert st; cbn; intros st;
    destruct o as [data | response];
    try (rewrite <- Hrej; unfold navigatesTo; cbn;
         destruct (authFailure response); cbn; intuition congruence);
    try (split; [discriminate | intros H; now apply Hres in H]).
  - split; [|intros H; now apply Hres in H].
    unfold Profile.fetchCurrentUser_k.
    destruct (prop data "phone_number"), (prop data "first_name"),
      (prop data "last_name"); unfold navigatesTo; cbn; discriminate.
  - split; [|intros H; now apply Hres in H].
    unfold Users.fetchCurrentUser_k.
    destruct (prop data "role") as [role|];
      [|unfold navigatesTo; cbn; discriminate].
    destruct (strictEq role (JStr "Warden"));
      unfold navigatesTo; cbn; discriminate.
Qed.

Lemma redirect_exactly_on_auth_failure_witness :
  navigatesTo "/signin"
    (Rooms.fetchRooms_k (Rejected (JObj [("status", JStr "401")])) Rooms.init)
  <> true.
Proof.
  intros H.
  apply (redirect_exactly_on_auth_failure (fetchOf Rooms.fetchRooms)
           (Rejected (JObj [("status", JStr "401")])) Rooms.init
           ltac:(simpl; tauto)) in H.
  destruct H as (response & Heq & [H | H]);
    injection Heq as <-; discriminate H.
Defined.

(** ** Trimming and the damage-report form *)

Lemma trimEnd_empty (s : string) : trimEnd s = "" <-> blank s = true.
Proof.
  induction s as [|c r IH]; simpl; [tauto|].
  destruct (trimEnd r) as [|c' k] eqn:E.
  - assert (Hr : blank r = true) by now apply IH.
    rewrite Hr, andb_true_r. destruct (isSpace c); split; congruence.
  - assert (Hr : blank r = false).
    { destruct (blank r); [|reflexivity]. destruct IH as [_ H].
      discriminate (H eq_refl). }
    rewrite Hr, andb_false_r. split; discriminate.
Qed.

Lemma trimStart_cases (s : string) :
  (trimStart s = "" /\ blank s = true)
  \/ (exists c r, trimStart s = String c r /\ isSpace c = false
                  /\ blank s = false).
Proof.
  induction s as [|c r IH]; simpl; [now left|].
  destruct (isSpace c) eqn:E; simpl; [exact IH|].
  right. exists c, r. repeat split. exact E.
Qed.

Lemma trimStart_split (s : string) :
  exists pre, s = append pre (trimStart s) /\ blank pre = true.
Proof.
  induction s as [|c r (pre & Hs & Hb)]; simpl.
  - now exists "".
  - destruct (isSpace c) eqn:E.
    + exists (String c pre). simpl. rewrite E, Hb.
      split; [congruence | reflexivity].
    + now exists "".
Qed.

Lemma trimEnd_split (s : string) :
  exists post, s = append (trimEnd s) post /\ blank post = true.
Proof.
  induction s as [|c r (post & Hs & Hb)]; simpl.
  - now exists "".
  - destruct (trimEnd r) as [|c' k] eqn:E.
    + simpl in Hs. subst post. destruct (isSpace c) eqn:Ec.
      * exists (String c r). simpl. rewrite Ec, Hb. now split.
      * exists r. now split.
    + exists post. simpl in *. split; congruence.
Qed.

Lemma trimEnd_no_trailing (s : string) : endsWithSpace (trimEnd s) = false.
Proof.
  induction s as [|c r IH]; simpl; [reflexivity|].
  destruct (trimEnd r) as [|c' k] eqn:E.
  - destruct (isSpace c) eqn:Ec; simpl; [reflexivity | exact Ec].
  - exact IH.
Qed.

Lemma trimEnd_idempotent (s : string) : trimEnd (trimEnd s) = trimEnd s.
Proof.
  induction s as [|c r IH]; simpl; [reflexivity|].
  destruct (trimEnd r) as [|c' k] eqn:E.
  - destruct (isSpace c) eqn:Ec; simpl; [reflexivity | now rewrite Ec].
  - change (trimEnd (String c (String c' k))) with
      (match trimEnd (String c' k) with
       | EmptyString => if isSpace c then EmptyString else String c EmptyString
       | kept => String c kept
       end).
    now rewrite IH.
Qed.

(** [s.trim()] cuts white space off both ends and nothing else: the
    input is a blank prefix, the result, and a blank suffix; the result
    neither starts nor ends with white space; it is empty exactly when the
    input is all white space; trimming twice is trimming once. *)
Theorem trim_spec (s : string) :
  (exists pre post,
      s = append pre (append (trim s) post)
      /\ blank pre = true /\ blank post = true)
  /\ startsWithSpace (trim s) = false
  /\ endsWithSpace (trim s) = false
  /\ (trim s = "" <-> blank s = true)
  /\ trim (trim s) = trim s.
Proof.
  unfold trim.
  assert (Hstart : startsWithSpace (trimEnd (trimStart s)) = false).
  { destruct (trimStart_cases s) as [[-> _] | (c & r & -> & Hc & _)];
      [reflexivity|].
    simpl. destruct (trimEnd r); [rewrite Hc|]; simpl; exact Hc. }
  split; [|split; [exact Hstart|split; [apply trimEnd_no_trailing|split]]].
  - destruct (trimStart_split s) as (pre & Hs & Hpre).
    destruct (trimEnd_split (trimStart s)) as (post & Ht & Hpost).
    exists pre, post. rewrite <- Ht. now repeat split.
  - rewrite trimEnd_empty.
    destruct (trimStart_cases s) as [[-> ->] | (c & r & -> & Hc & ->)];
      simpl; [tauto|]. rewrite Hc. simpl. tauto.
  - destruct (trimEnd (trimStart s)) as [|c k] eqn:E; [reflexivity|].
    simpl in Hstart. simpl trimStart. rewrite Hstart.
    rewrite <- E. apply trimEnd_idempotent.
Qed.

(** X6.  Submitting the damage-report form calls the create endpoint
    exactly when a room is selected and the description has a character
    that is not white space.  Otherwise nothing is sent, the state stays
    and an error toast is shown.  What is sent carries the trimmed
    description, which is not empty and has no white space at its ends. *)
Theorem damage_submit_validation (st : Damage.State) :
  (requestsOf (Damage.handleSubmit st) = []
   <-> Damage.selectedRoom st = "" \/ blank (Damage.description st) = true)
  /\ (requestsOf (Damage.handleSubmit st) = [] ->
      stateOf (Damage.handleSubmit st) = st
      /\ existsb isErrorToast (effectsOf (Damage.handleSubmit st)) = true)
  /\ (forall c, In c (requestsOf (Damage.handleSubmit st)) ->
        exists d,
          c = createDamageReport
                (JObj [("room", JStr (Damage.selectedRoom st));
                       ("asset_type", JStr (Damage.assetType st));
                       ("description", JStr d)])
          /\ d = trim (Damage.description st) /\ d <> ""
          /\ startsWithSpace d = false /\ endsWithSpace d = false).
Proof.
  destruct (trim_spec (Damage.description st))
    as (_ & Hstart & Hend & Hempty & _).
  unfold Damage.handleSubmit.
  destruct (String.eqb_spec (Damage.selectedRoom st) "") as [Hroom | Hroom].
  - repeat split; try tauto; try reflexivity. intros c [].
  - destruct (String.eqb_spec (trim (Damage.description st)) "")
      as [Hdesc | Hdesc].
    + repeat split; try reflexivity; try (intros c []).
      right. now apply Hempty.
    + split; [|split].
      * split; [discriminate|]. intros [H | H]; [contradiction|].
        apply Hempty in H. contradiction.
      * discriminate.
      * intros c [<- | []]. eexists. repeat split; assumption.
Qed.

Lemma damage_submit_validation_witness :
  let nl := String (ascii_of_nat 10) EmptyString in
  let st := Damage.mkState (JArr []) (JArr []) "5" "Bed"
                           (append "  " (append nl " ")) false in
  requestsOf (Damage.handleSubmit st) = []
  /\ stateOf (Damage.handleSubmit st) = st
  /\ existsb isErrorToast (effectsOf (Damage.handleSubmit st)) = true.
Proof.
  intros nl st.
  destruct (damage_submit_validation st) as (Hiff & Hnone & _).
  assert (H : requestsOf (Damage.handleSubmit st) = [])
    by (apply Hiff; right; reflexivity).
  split; [exact H | exact (Hnone H)].
Defined.

(** ** Changing the status of a damage report *)




(** ** Signing in and registering *)

Lemma orElse_truthy (a b : JsVal) :
  truthy b = true -> truthy (orElse a b) = true.
Proof. unfold orElse. destruct (truthy a) eqn:E; auto. Qed.

Lemma orElse_not_nullish (a : JsVal) (s : string) :
  nullish (orElse a (JStr s)) = false.
Proof.
  unfold orElse. destruct (truthy a) eqn:E; [|reflexivity].
  destruct a; simpl in *; congruence.
Qed.

(** X8.  A login attempt, from the click to the settled request.  On
    success (a body with a readable [user]) the user snapshot is stored,
    the error stays cleared and navigation to the dashboard is scheduled.
    On any failure, a body of [null] included, nothing is stored, nothing
    is scheduled, and an error that is never empty is set: the server's
    [error] when it has one, the fixed text otherwise.  [loading] ends
    false either way. *)
Theorem login_outcome (username password : string) (o : Outcome)
  (st : Auth.State) :
  exists k,
    Auth.handleLogin username password st
    = (Auth.mkState true (JStr "") (Auth.storedUser st), [],
       [Await (login (JObj [("username", JStr username);
                            ("password", JStr password)])) k])
    /\ let r := k o (stateOf (Auth.handleLogin username password st)) in
       Auth.loading (stateOf r) = false
       /\ match o with
          | Resolved (JObj fs) =>
              stateOf r
              = Auth.mkState false (JStr "") (Some (getField "user" fs))
              /\ In (ENavigateAfter 1500 "/dashboard") (effectsOf r)
          | Resolved JNull | Resolved JUndefined =>
              stateOf r
              = Auth.mkState false (JStr Auth.loginFallback)
                             (Auth.storedUser st)
              /\ effectsOf r = [EConsoleError "Login error:"]
          | Resolved _ =>
              stateOf r = Auth.mkState false (JStr "") (Some JUndefined)
          | Rejected response =>
              Auth.storedUser (stateOf r) = Auth.storedUser st
              /\ effectsOf r = [EConsoleError "Login error:"]
              /\ truthy (Auth.error (stateOf r)) = true
              /\ Auth.error (stateOf r)
                 = (if truthy (serverError response)
                    then serverError response
                    else JStr Auth.loginFallback)
          end.
Proof.
  eexists. split; [reflexivity|]. cbn.
  destruct o as [data | response].
  - destruct data; cbn; repeat split; tauto.
  - cbn. repeat split. apply orElse_truthy. reflexivity.
Qed.

(** X9.  A failed registration always shows an error, chosen in this
    order: the response's flat [error] field, else the first message of
    its [username] field, else the fixed text; it schedules no navigation.
    A successful one schedules navigation to sign-in and sets no error. *)
Theorem register_outcome (o : Outcome) (st : Auth.State) :
  let r := Auth.handleRegister_k o st in
  Auth.loading (stateOf r) = false
  /\ Auth.storedUser (stateOf r) = Auth.storedUser st
  /\ match o with
     | Resolved _ =>
         Auth.error (stateOf r) = Auth.error st
         /\ In (ENavigateAfter 2000 "/signin") (effectsOf r)
     | Rejected response =>
         let flat := optProp (optProp response "data") "error" in
         let first :=
           optFirst (optProp (optProp response "data") "username") in
         effectsOf r = [EConsoleError "Registration error:"]
         /\ truthy (Auth.error (stateOf r)) = true
         /\ Auth.error (stateOf r)
            = (if truthy flat then flat
               else if truthy first then first
                    else JStr Auth.registerFallback)
     end.
Proof.
  destruct o as [data | response]; cbn; repeat split; try tauto.
  unfold Auth.registerError. apply orElse_truthy, orElse_truthy. reflexivity.
Qed.

(** A taken username, as the API reports it. *)
Example register_username_taken :
  let response :=
    JObj [("status", JNum 400);
          ("data", JObj [("username",
                          JArr [JStr "A user with that username already exists."])])] in
  Auth.error (stateOf (Auth.handleRegister_k (Rejected response) (Auth.init None)))
  = JStr "A user with that username already exists.".
Proof. reflexivity. Qed.

(** ** The profile form *)

(** X10.  After the identity fetch of the profile page resolves with a
    body, none of the three form fields is [null] or [undefined]: each is
    the server's value when that is truthy and the empty string otherwise,
    so the update that follows never sends [null] for a field the server
    left unset. *)
Theorem profile_fields_never_null (fs : list (string * JsVal))
  (st : Profile.State) :
  let st' := stateOf (Profile.fetchCurrentUser_k (Resolved (JObj fs)) st) in
  Profile.user st' = JObj fs
  /\ Profile.phoneNumber st' = orElse (getField "phone_number" fs) (JStr "")
  /\ Profile.firstName st' = orElse (getField "first_name" fs) (JStr "")
  /\ Profile.lastName st' = orElse (getField "last_name" fs) (JStr "")
  /\ nullish (Profile.phoneNumber st') = false
  /\ nullish (Profile.firstName st') = false
  /\ nullish (Profile.lastName st') = false
  /\ exists ph fn ln,
      requestsOf (Profile.handleUpdateProfile st')
      = [updateProfile (JObj [("phone_number", ph); ("first_name", fn);
                              ("last_name", ln)])]
      /\ nullish ph = false /\ nullish fn = false /\ nullish ln = false.
Proof.
  cbn. repeat split; try apply orElse_not_nullish.
  eexists; eexists; eexists. split; [reflexivity|].
  repeat split; apply orElse_not_nullish.
Qed.

(** ** The requests *)

(** X11.  Every call of the transport wrapper goes to a URL under the base
    URL that ends in a slash, interpolates nothing but its id argument,
    and carries a body exactly when it is a POST or PUT other than logout.
    Listing and creating a resource use one URL; updating and deleting an
    item use one URL. *)
Theorem request_shape (c : Call) :
  hd (Api.Interp JUndefined) (Api.url (Api.request c)) = Api.Lit Api.API_BASE_URL
  /\ Api.closed (Api.url (Api.request c)) = true
  /\ (forall v, In (Api.Interp v) (Api.url (Api.request c)) ->
                idOf c = Some v)
  /\ (Api.body (Api.request c) = None
      <-> Api.method (Api.request c) = Api.GET
          \/ Api.method (Api.request c) = Api.DELETE
          \/ c = logout)
  /\ (forall id d d',
        Api.url (Api.request (createRoom d)) = Api.url (Api.request getRooms)
        /\ Api.url (Api.request (updateRoom id d))
           = Api.url (Api.request (deleteRoom id))
        /\ Api.url (Api.request (createAsset d)) = Api.url (Api.request getAssets)
        /\ Api.url (Api.request (updateAsset id d))
           = Api.url (Api.request (deleteAsset id))
        /\ Api.url (Api.request (createDamageReport d))
           = Api.url (Api.request getDamageReports)
        /\ Api.url (Api.request (updateDamageReport id d))
           = Api.url (Api.request (deleteDamageReport id))
        /\ Api.url (Api.request (updateUser id d))
           = Api.url (Api.request (updateUser id d'))).
Proof.
  split; [destruct c; reflexivity|].
  split; [destruct c; reflexivity|].
  split; [|split].
  - intros v Hin. destruct c; simpl in Hin;
      repeat (destruct Hin as [Hin | Hin]; try discriminate);
      try contradiction; injection Hin as <-; reflexivity.
  - destruct c; simpl; split; intros H; try reflexivity; try discriminate;
      try (left; reflexivity); try (right; left; reflexivity);
      try (right; right; reflexivity);
      destruct H as [H | [H | H]]; discriminate.
  - intros id d d'. repeat split.
Qed.

(** ** Invariants of a page *)

Section Preservation.

Variables S UI : Type.
Variable fire : UI -> S -> option (Reaction S).
Variable stateOk : S -> Prop.
Variable taskOk : Task S -> Prop.
Variable callOk : Call -> Prop.

Hypothesis task_call : forall t, taskOk t -> callOk (callOf t).
Hypothesis fire_ok :
  forall e st r, stateOk st -> fire e st = Some r ->
                 stateOk (stateOf r) /\ Forall taskOk (spawnedOf r).
Hypothesis settle_ok :
  forall t o st, stateOk st -> taskOk t ->
                 stateOk (stateOf (settle t o st))
                 /\ Forall taskOk (spawnedOf (settle t o st)).

Lemma pageInv_mounted (s0 : S) (tasks : list (Task S)) :
  stateOk s0 -> Forall taskOk tasks ->
  pageInv stateOk taskOk callOk (mounted s0 tasks).
Proof.
  intros Hs Ht. split; [exact Hs|]. split; [exact Ht|].
  intros c Hin. cbn in Hin. apply in_map_iff in Hin as (t & Heq & Hin).
  injection Heq as <-. apply task_call.
  rewrite Forall_forall in Ht. now apply Ht.
Qed.

Lemma pageInv_absorb (hist : list Event) (rest : list (Task S))
  (r : Reaction S) :
  (forall c, In (Sent c) hist -> callOk c) ->
  Forall taskOk rest ->
  stateOk (stateOf r) -> Forall taskOk (spawnedOf r) ->
  pageInv stateOk taskOk callOk (absorb hist rest r).
Proof.
  intros Hhist Hrest Hst Hsp. split; [exact Hst|]. split.
  - cbn. apply Forall_app. now split.
  - intros c Hin. apply sent_absorb in Hin as [Hin | Hin]; [now apply Hhist|].
    unfold requestsOf in Hin. apply in_map_iff in Hin as (t & <- & Hin).
    apply task_call. rewrite Forall_forall in Hsp. now apply Hsp.
Qed.

Lemma pageInv_next (cfg cfg' : Config S) (i : Input UI) :
  pageInv stateOk taskOk callOk cfg -> next fire cfg i = Some cfg' ->
  pageInv stateOk taskOk callOk cfg'.
Proof.
  intros (Hst & Hfl & Hsent) Hnext. destruct i as [e | n o]; cbn in Hnext.
  - destruct (fire e (store cfg)) as [r|] eqn:Hfire; [|discriminate].
    injection Hnext as <-.
    destruct (fire_ok _ _ _ Hst Hfire) as [Hst' Hsp].
    now apply pageInv_absorb.
  - destruct (nth_error (inflight cfg) n) as [t|] eqn:Hnth; [|discriminate].
    injection Hnext as <-.
    pose proof (Forall_nth_error _ _ _ _ Hfl Hnth) as Ht.
    destruct (settle_ok t o _ Hst Ht) as [Hst' Hsp].
    apply pageInv_absorb; try assumption.
    + intros c Hin. apply in_app_iff in Hin as [Hin | [Hin | []]];
        [now apply Hsent | discriminate].
    + now apply Forall_dropNth.
Qed.

Lemma pageInv_reachable (start cfg : Config S) :
  pageInv stateOk taskOk callOk start -> reachable fire start cfg ->
  pageInv stateOk taskOk callOk cfg.
Proof.
  intros Hstart. apply reachable_ind; [exact Hstart|].
  intros c i c' _ Hinv Hnext. exact (pageInv_next c c' i Hinv Hnext).
Qed.

End Preservation.

(** ** The Rooms page *)

Lemma prop_some (v : JsVal) (k k' : string) (x : JsVal) :
  prop v k = Some x -> exists y, prop v k' = Some y.
Proof. destruct v; simpl; intros H; try discriminate; eexists; reflexivity. Qed.

Lemma hasKeys_setField (keys : list string) (fs : list (string * JsVal))
  (k : string) (v : JsVal) :
  map fst fs = keys -> In k keys -> hasKeys keys (JObj (setField k v fs)).
Proof.
  intros Hk Hin. exists (setField k v fs). split; [reflexivity|].
  rewrite <- Hk. apply keys_setField. now rewrite Hk.
Qed.

Lemma existsb_eqb_In (k : string) (l : list string) :
  existsb (String.eqb k) l = true -> In k l.
Proof.
  intros H. apply existsb_exists in H as (x & Hin & Heq).
  apply String.eqb_eq in Heq. now subst.
Qed.

Lemma rooms_rows_readable (st : Rooms.State) (l : list JsVal) (n : nat)
  (room : JsVal) :
  RoomsPage.rows st = Some l -> nth_error l n = Some room ->
  exists x, prop room "id" = Some x.
Proof.
  unfold RoomsPage.rows. destruct (Rooms.loading st); [discriminate|].
  destruct (Rooms.rooms st) as [| | | | |items|]; try discriminate.
  destruct (forallb _ items) eqn:Hall; [|discriminate].
  intros H Hnth. injection H as <-. apply nth_error_In in Hnth.
  rewrite forallb_forall in Hall. specialize (Hall room Hnth).
  destruct (prop room "id") as [x|]; [now exists x | discriminate].
Qed.

Lemma rooms_default_ok : hasKeys RoomsPage.fieldNames Rooms.defaultForm.
Proof. eexists. split; reflexivity. Qed.

Lemma rooms_fetch_task : roomsTask Rooms.fetchRooms.
Proof. split; [now left | now left]. Qed.

Lemma rooms_fire_ok (e : RoomsPage.UI) (st : Rooms.State)
  (r : Reaction Rooms.State) :
  roomsStateOk st -> RoomsPage.fire e st = Some r ->
  roomsStateOk (stateOf r) /\ Forall roomsTask (spawnedOf r).
Proof.
  intros (Harr & (fs & Hform & Hkeys) & Hhidden) Hfire.
  unfold RoomsPage.fire in Hfire.
  destruct (RoomsPage.rows st) as [l|] eqn:Hrows; [|discriminate].
  destruct e as [| |name value| |row|row confirmed].
  - injection Hfire as <-. split; [|constructor].
    split; [exact Harr|]. split; [now exists fs | exact Hhidden].
  - injection Hfire as <-. destruct (Rooms.showForm st) eqn:Hshow; cbn.
    + split; [|constructor]. split; [exact Harr|].
      split; [apply rooms_default_ok | now split].
    + split; [|constructor]. split; [exact Harr|].
      split; [now exists fs | discriminate].
  - destruct (Rooms.showForm st) eqn:Hshow; cbn [andb] in Hfire;
      [|discriminate].
    destruct (existsb (String.eqb name) RoomsPage.fieldNames) eqn:Hname;
      [|discriminate].
    injection Hfire as <-. unfold Rooms.handleChange. rewrite Hform. cbn.
    split; [|constructor]. split; [exact Harr|]. split.
    + apply hasKeys_setField; [exact Hkeys | now apply existsb_eqb_In].
    + intros H. cbn in H. congruence.
  - destruct (Rooms.showForm st) eqn:Hshow; [|discriminate].
    injection Hfire as <-. cbn. split.
    + split; [exact Harr|]. split; [now exists fs|].
      intros H. cbn in H. congruence.
    + constructor; [|constructor].
      destruct (truthy (Rooms.editingRoom st)); split; cbn.
      * right; right; left. eexists; eexists. split; [reflexivity|].
        now exists fs.
      * right; left. now exists true.
      * right; left. eexists. split; [reflexivity|]. now exists fs.
      * right; left. now exists false.
  - destruct (nth_error l row) as [room|] eqn:Hnth; [|discriminate].
    injection Hfire as <-.
    destruct (rooms_rows_readable _ _ _ _ Hrows Hnth) as (x & Hx).
    unfold Rooms.handleEdit.
    destruct (prop_some _ _ "room_number" _ Hx) as (rn & ->).
    destruct (prop_some _ _ "hostel_name" _ Hx) as (hn & ->).
    destruct (prop_some _ _ "floor" _ Hx) as (fl & ->).
    destruct (prop_some _ _ "capacity" _ Hx) as (cap & ->).
    cbn. split; [|constructor]. split; [exact Harr|].
    split; [eexists; split; reflexivity | discriminate].
  - destruct (nth_error l row) as [room|] eqn:Hnth; [|discriminate].
    injection Hfire as <-. cbn. split.
    + split; [exact Harr|]. split; [now exists fs | exact Hhidden].
    + destruct confirmed; constructor; [|constructor].
      split; cbn; [right; right; right; eexists; reflexivity | now right; right].
Qed.

Lemma rooms_settle_ok (t : Task Rooms.State) (o : Outcome) (st : Rooms.State) :
  roomsStateOk st -> roomsTask t ->
  roomsStateOk (stateOf (settle t o st))
  /\ Forall roomsTask (spawnedOf (settle t o st)).
Proof.
  intros (Harr & Hform & Hhidden) [_ [-> | [[b Hk] | Hk]]];
    [cbn | rewrite Hk | rewrite Hk]; destruct o as [data | response]; cbn.
  - split; [|constructor]. split; [apply isArray_arrayOrEmpty|]. now split.
  - split; [|constructor]. split; [reflexivity|]. now split.
  - split; [|constructor; [apply rooms_fetch_task | constructor]].
    split; [exact Harr|]. split; [apply rooms_default_ok | now split].
  - split; [exact (conj Harr (conj Hform Hhidden)) | constructor].
  - split; [exact (conj Harr (conj Hform Hhidden))|].
    constructor; [apply rooms_fetch_task | constructor].
  - split; [exact (conj Harr (conj Hform Hhidden)) | constructor].
Qed.

Lemma roomsInv_reachable (cfg : Config Rooms.State) :
  reachable RoomsPage.fire roomsStart cfg -> roomsInv cfg.
Proof.
  apply pageInv_reachable.
  - intros t [H _]. exact H.
  - intros e st r. apply rooms_fire_ok.
  - intros t o st. apply rooms_settle_ok.
  - apply pageInv_mounted.
    + intros t [H _]. exact H.
    + split; [reflexivity|]. split; [apply rooms_default_ok | now split].
    + constructor; [apply rooms_fetch_task | constructor].
Qed.

(** X12.  On the Rooms page, whatever the user does and however the
    requests settle: the room list is an array; the form data is an object
    with exactly the four fields room_number, hostel_name, floor and
    capacity; while the form is hidden it holds the defaults and no room is
    being edited, so Add New Room always opens an empty form; and the only
    calls ever sent are the list fetch, deletes, and creates and updates
    whose body has exactly those four fields. *)
Theorem rooms_page_invariant (cfg : Config Rooms.State) :
  reachable RoomsPage.fire roomsStart cfg ->
  isArray (Rooms.rooms (store cfg)) = true
  /\ hasKeys ["room_number"; "hostel_name"; "floor"; "capacity"]
             (Rooms.formData (store cfg))
  /\ (Rooms.showForm (store cfg) = false ->
      Rooms.editingRoom (store cfg) = JNull
      /\ Rooms.formData (store cfg) = Rooms.defaultForm)
  /\ (forall c, In (Sent c) (history cfg) ->
        c = getRooms
        \/ (exists d, c = createRoom d
                      /\ hasKeys ["room_number"; "hostel_name"; "floor";
                                  "capacity"] d)
        \/ (exists id d, c = updateRoom id d
                         /\ hasKeys ["room_number"; "hostel_name"; "floor";
                                     "capacity"] d)
        \/ (exists id, c = deleteRoom id)).
Proof.
  intros Hreach. apply roomsInv_reachable in Hreach.
  destruct Hreach as ((Harr & Hkeys & Hhidden) & _ & Hsent).
  repeat split; try assumption; now apply Hhidden.
Qed.

Lemma rooms_page_invariant_witness :
  exists cfg,
    run RoomsPage.fire roomsStart roomsSession = Some cfg
    /\ In (Sent (updateRoom (JNum 7)
                   (JObj [("room_number", JStr "101");
                          ("hostel_name", JStr "North");
                          ("floor", JStr ""); ("capacity", JStr "3")])))
          (history cfg)
    /\ Rooms.showForm (store cfg) = false
    /\ Rooms.formData (store cfg) = Rooms.defaultForm.
Proof.
  eexists. split; [reflexivity|]. split; [cbn; tauto|].
  split; [reflexivity|].
  refine (proj2 (proj1 (proj2 (proj2 (rooms_page_invariant _ _))) _)).
  - exists roomsSession. reflexivity.
  - reflexivity.
Defined.

(** ** The Assets page *)

Lemma assets_offers_name (name value : string) :
  AssetsPage.offers name value = true -> In name AssetsPage.fieldNames.
Proof.
  unfold AssetsPage.offers.
  destruct (String.eqb_spec name "asset_type") as [-> | _];
    [intros _; simpl; tauto|].
  destruct (String.eqb_spec name "condition") as [-> | _];
    [intros _; simpl; tauto|].
  apply existsb_eqb_In.
Qed.

Lemma assets_rows_readable (st : Assets.State) (l : list JsVal) (n : nat)
  (asset : JsVal) :
  AssetsPage.rows st = Some l -> nth_error l n = Some asset ->
  exists x, prop asset "id" = Some x.
Proof.
  unfold AssetsPage.rows. destruct (Assets.loading st); [discriminate|].
  destruct (Assets.assets st) as [| | | | |items|]; try discriminate.
  destruct (forallb _ items) eqn:Hall; [|discriminate].
  intros H Hnth. injection H as <-. apply nth_error_In in Hnth.
  rewrite forallb_forall in Hall. specialize (Hall asset Hnth).
  destruct (prop asset "id") as [x|]; [now exists x | discriminate].
Qed.

Lemma assets_default_ok : hasKeys AssetsPage.fieldNames Assets.defaultForm.
Proof. eexists. split; reflexivity. Qed.

Lemma assets_fetch_task (b : bool) : assetsTask (Assets.fetchAssets b).
Proof. split; [now left | left; now exists b]. Qed.

Lemma assets_fire_ok (e : AssetsPage.UI) (st : Assets.State)
  (r : Reaction Assets.State) :
  assetsStateOk st -> AssetsPage.fire e st = Some r ->
  assetsStateOk (stateOf r) /\ Forall assetsTask (spawnedOf r).
Proof.
  intros (Harr & (fs & Hform & Hkeys) & Hhidden) Hfire.
  unfold AssetsPage.fire in Hfire.
  destruct (AssetsPage.rows st) as [l|] eqn:Hrows; [|discriminate].
  destruct e as [| |name value| |row|row confirmed].
  - injection Hfire as <-. split; [|constructor].
    split; [exact Harr|]. split; [now exists fs | exact Hhidden].
  - injection Hfire as <-. destruct (Assets.showForm st) eqn:Hshow; cbn.
    + split; [|constructor]. split; [exact Harr|].
      split; [apply assets_default_ok | now split].
    + split; [|constructor]. split; [exact Harr|].
      split; [now exists fs | discriminate].
  - destruct (Assets.showForm st) eqn:Hshow; cbn [andb] in Hfire;
      [|discriminate].
    destruct (AssetsPage.offers name value) eqn:Hname; [|discriminate].
    injection Hfire as <-. unfold Assets.handleChange. rewrite Hform. cbn.
    split; [|constructor]. split; [exact Harr|]. split.
    + apply hasKeys_setField; [exact Hkeys|].
      now apply assets_offers_name with (value := value).
    + intros H. cbn in H. congruence.
  - destruct (Assets.showForm st) eqn:Hshow; [|discriminate].
    injection Hfire as <-. cbn. split.
    + split; [exact Harr|]. split; [now exists fs|].
      intros H. cbn in H. congruence.
    + constructor; [|constructor].
      destruct (truthy (Assets.editingAsset st)); split; cbn.
      * right; right; left. eexists; eexists. split; [reflexivity|].
        now exists fs.
      * right; left. now exists true.
      * right; left. eexists. split; [reflexivity|]. now exists fs.
      * right; left. now exists false.
  - destruct (nth_error l row) as [asset|] eqn:Hnth; [|discriminate].
    injection Hfire as <-.
    destruct (assets_rows_readable _ _ _ _ Hrows Hnth) as (x & Hx).
    unfold Assets.handleEdit.
    destruct (prop_some _ _ "name" _ Hx) as (n & ->).
    destruct (prop_some _ _ "asset_type" _ Hx) as (ty & ->).
    destruct (prop_some _ _ "total_quantity" _ Hx) as (q & ->).
    destruct (prop_some _ _ "condition" _ Hx) as (cd & ->).
    cbn. split; [|constructor]. split; [exact Harr|].
    split; [eexists; split; reflexivity | discriminate].
  - destruct (nth_error l row) as [asset|] eqn:Hnth; [|discriminate].
    injection Hfire as <-. cbn. split.
    + split; [exact Harr|]. split; [now exists fs | exact Hhidden].
    + destruct confirmed; constructor; [|constructor].
      split; cbn; [right; right; right; eexists; reflexivity | now right; right].
Qed.

Lemma assets_settle_ok (t : Task Assets.State) (o : Outcome)
  (st : Assets.State) :
  assetsStateOk st -> assetsTask t ->
  assetsStateOk (stateOf (settle t o st))
  /\ Forall assetsTask (spawnedOf (settle t o st)).
Proof.
  intros (Harr & Hform & Hhidden) [_ [[wt ->] | [[b Hk] | Hk]]];
    [cbn | rewrite Hk | rewrite Hk]; destruct o as [data | response]; cbn.
  - split; [|constructor]. split; [apply isArray_arrayOrEmpty|]. now split.
  - split; [|constructor]. split; [reflexivity|]. now split.
  - split; [|constructor; [apply assets_fetch_task | constructor]].
    split; [exact Harr|]. split; [apply assets_default_ok | now split].
  - split; [exact (conj Harr (conj Hform Hhidden)) | constructor].
  - split; [exact (conj Harr (conj Hform Hhidden))|].
    constructor; [apply assets_fetch_task | constructor].
  - split; [exact (conj Harr (conj Hform Hhidden)) | constructor].
Qed.

Lemma assetsInv_reachable (cfg : Config Assets.State) :
  reachable AssetsPage.fire assetsStart cfg -> assetsInv cfg.
Proof.
  apply pageInv_reachable.
  - intros t [H _]. exact H.
  - intros e st r. apply assets_fire_ok.
  - intros t o st. apply assets_settle_ok.
  - apply pageInv_mounted.
    + intros t [H _]. exact H.
    + split; [reflexivity|]. split; [apply assets_default_ok | now split].
    + constructor; [apply assets_fetch_task | constructor].
Qed.

(** X13.  On the Assets page, whatever the user does and however the
    requests settle: the asset list is an array; the form data is an
    object with exactly the four fields name, asset_type, total_quantity
    and condition; while the form is hidden it holds the defaults and no
    asset is being edited; and the only calls ever sent are the list
    fetch, deletes, and creates and updates whose body has exactly those
    four fields. *)
Theorem assets_page_invariant (cfg : Config Assets.State) :
  reachable AssetsPage.fire assetsStart cfg ->
  isArray (Assets.assets (store cfg)) = true
  /\ hasKeys ["name"; "asset_type"; "total_quantity"; "condition"]
             (Assets.formData (store cfg))
  /\ (Assets.showForm (store cfg) = false ->
      Assets.editingAsset (store cfg) = JNull
      /\ Assets.formData (store cfg) = Assets.defaultForm)
  /\ (forall c, In (Sent c) (history cfg) ->
        c = getAssets
        \/ (exists d, c = createAsset d
                      /\ hasKeys ["name"; "asset_type"; "total_quantity";
                                  "condition"] d)
        \/ (exists id d, c = updateAsset id d
                         /\ hasKeys ["name"; "asset_type"; "total_quantity";
                                     "condition"] d)
        \/ (exists id, c = deleteAsset id)).
Proof.
  intros Hreach. apply assetsInv_reachable in Hreach.
  destruct Hreach as ((Harr & Hkeys & Hhidden) & _ & Hsent).
  repeat split; try assumption; now apply Hhidden.
Qed.

Lemma assets_page_invariant_witness :
  exists cfg,
    run AssetsPage.fire assetsStart assetsSession = Some cfg
    /\ In (Sent (createAsset
                   (JObj [("name", JStr "Desk"); ("asset_type", JStr "Table");
                          ("total_quantity", JNum 1);
                          ("condition", JStr "Good")])))
          (history cfg)
    /\ Assets.showForm (store cfg) = false
    /\ Assets.formData (store cfg) = Assets.defaultForm.
Proof.
  eexists. split; [reflexivity|]. split; [cbn; tauto|].
  split; [reflexivity|].
  refine (proj2 (proj1 (proj2 (proj2 (assets_page_invariant _ _))) _)).
  - exists assetsSession. reflexivity.
  - reflexivity.
Defined.

(** ** The sign-in page *)

Lemma signIn_settle_shape (u p : string) (o : Outcome) (st : SignIn.State) :
  exists a effs,
    settle (SignIn.loginTask u p) o st = (SignIn.setAuth a st, effs, [])
    /\ Auth.loading a = false
    /\ (Auth.storedUser a = Auth.storedUser (SignIn.auth st)
        \/ exists d usr, o = Resolved d /\ prop d "user" = Some usr
                         /\ Auth.storedUser a = Some usr).
Proof.
  cbn. destruct o as [data | response]; cbn.
  - destruct (prop data "user") as [usr|] eqn:Husr; cbn;
      eexists; eexists; (split; [reflexivity|]); (split; [reflexivity|]).
    + right. now exists data, usr.
    + now left.
  - eexists; eexists. split; [reflexivity|]. split; [reflexivity | now left].
Qed.

Lemma signInInv_next (stored : option JsVal) (cfg cfg' : Config SignIn.State)
  (i : Input SignIn.UI) :
  signInInv stored cfg -> next SignIn.fire cfg i = Some cfg' ->
  signInInv stored cfg'.
Proof.
  intros (Hfl & Hsent & Hstored) Hnext.
  destruct cfg as [st fl hist]; cbn [store inflight history] in *.
  destruct i as [e | n o]; cbn in Hnext.
  - destruct e as [s | s |]; cbn in Hnext.
    + injection Hnext as <-. unfold signInInv, absorb; cbn [store inflight history stateOf effectsOf spawnedOf requestsOf fst snd map app].
      rewrite !app_nil_r. now repeat split.
    + injection Hnext as <-. unfold signInInv, absorb; cbn [store inflight history stateOf effectsOf spawnedOf requestsOf fst snd map app].
      rewrite !app_nil_r. now repeat split.
    + destruct (Auth.loading (SignIn.auth st)) eqn:Hload; [discriminate|].
      destruct (String.eqb_spec (SignIn.username st) "") as [|Hu];
        [discriminate|].
      destruct (String.eqb_spec (SignIn.password st) "") as [|Hp];
        [discriminate|].
      cbn in Hnext. injection Hnext as <-. unfold signInInv, absorb; cbn [store inflight history stateOf effectsOf spawnedOf requestsOf fst snd map app].
      destruct fl as [|t [|t' fl]];
        [| destruct Hfl as [Hl _]; congruence | contradiction].
      cbn. split;
        [split; [reflexivity|];
         exists (SignIn.username st), (SignIn.password st); reflexivity|].
      split.
      * intros d Hin. apply in_app_iff in Hin as [Hin | [Hin | [Hin | []]]];
          [now apply Hsent | discriminate |].
        injection Hin as <-.
        exists (SignIn.username st), (SignIn.password st).
        split; [reflexivity | split; assumption].
      * destruct Hstored as [H | (body & d & u & Hin & Hu' & Hs)];
          [now left|].
        right. exists body, d, u. split; [|now split].
        apply in_app_iff. now left.
  - destruct fl as [|t [|t' fl]]; [destruct n; discriminate | | contradiction].
    destruct n as [|n]; [|destruct n; discriminate].
    cbn in Hnext. injection Hnext as <-.
    destruct Hfl as [Hl (u & p & ->)].
    destruct (signIn_settle_shape u p o st) as (a & effs & -> & Hla & Hsa).
    split; [exact Hla|]. split.
    + intros d Hin. apply sent_absorb in Hin as [Hin | []].
      apply in_app_iff in Hin as [Hin | [Hin | []]];
        [now apply Hsent | discriminate].
    + cbn [store absorb stateOf fst SignIn.auth SignIn.setAuth].
      destruct Hsa as [Hsame | (d & usr & -> & Husr & Hnew)].
      * rewrite Hsame.
        destruct Hstored as [H | (body & d & u0 & Hin & Hu' & Hs)];
          [now left|].
        right. exists body, d, u0. split; [|now split].
        apply got_absorb, in_app_iff. now left.
      * right. eexists; exists d, usr. split; [|now split].
        apply got_absorb, in_app_iff. right. now left.
Qed.

Lemma signInInv_reachable (stored : option JsVal) (cfg : Config SignIn.State) :
  reachable SignIn.fire (signInStart stored) cfg -> signInInv stored cfg.
Proof.
  apply reachable_ind.
  - split; [reflexivity|]. split; [intros d []|]. now left.
  - intros c i c' _ Hinv Hnext. exact (signInInv_next stored c c' i Hinv Hnext).
Qed.

(** X14.  On the sign-in page at most one login request is in flight, and
    [loading] is true exactly while one is (the button is disabled to
    prevent a double submission); every login request carries a non-empty
    username and password; and the stored user snapshot is either what
    local storage held when the page opened or the [user] of a login
    response that resolved. *)
Theorem sign_in_page (stored : option JsVal) (cfg : Config SignIn.State) :
  reachable SignIn.fire (signInStart stored) cfg ->
  List.length (inflight cfg) <= 1
  /\ (Auth.loading (SignIn.auth (store cfg)) = true <-> inflight cfg <> [])
  /\ (forall d, In (Sent (login d)) (history cfg) ->
        exists u p, d = JObj [("username", JStr u); ("password", JStr p)]
                    /\ u <> "" /\ p <> "")
  /\ (Auth.storedUser (SignIn.auth (store cfg)) = stored
      \/ exists body d u,
          In (Got (login body) (Resolved d)) (history cfg)
          /\ prop d "user" = Some u
          /\ Auth.storedUser (SignIn.auth (store cfg)) = Some u).
Proof.
  intros Hreach. apply signInInv_reachable in Hreach.
  destruct Hreach as (Hfl & Hsent & Hstored).
  split; [|split; [|split; assumption]];
    destruct (inflight cfg) as [|t [|t' fl]]; try contradiction; cbn.
  - lia.
  - lia.
  - rewrite Hfl. split; [discriminate | intros H; now elim H].
  - destruct Hfl as [-> _]. split; [discriminate | reflexivity].
Qed.

Lemma sign_in_page_witness :
  exists cfg,
    run SignIn.fire (signInStart None) signInSession = Some cfg
    /\ Auth.storedUser (SignIn.auth (store cfg))
       = Some (JObj [("id", JNum 1); ("role", JStr "Warden")])
    /\ List.length (inflight cfg) <= 1.
Proof.
  eexists. split; [reflexivity|]. split; [reflexivity|].
  refine (proj1 (sign_in_page None _ _)).
  exists signInSession. reflexivity.
Defined.

(** ** What the reset page sends *)

Lemma verified_got_absorb {S} (hist : list Event) (c : Call) (o : Outcome)
  (rest : list (Task S)) (r : Reaction S) :
  verified hist -> verified (history (absorb (hist ++ [Got c o]) rest r)).
Proof. intros H. apply verified_absorb, verified_app, H. Qed.

Lemma forgotSentInv_next (cfg cfg' : Config Forgot.State)
  (i : Input Forgot.UI) :
  forgotInv cfg -> forgotSentInv cfg -> next Forgot.fire cfg i = Some cfg' ->
  forgotSentInv cfg'.
Proof.
  intros [Hver Hfl] (Hcode & Hverify & Hreset) Hnext.
  destruct cfg as [st fl hist]; cbn [store inflight history] in *.
  destruct i as [e | n o]; cbn in Hnext.
  - destruct (Forgot.fire e st) as [r|] eqn:Hfire; [|discriminate].
    injection Hnext as <-.
    assert (Hquiet : requestsOf r = [] ->
                     Forgot.code (stateOf r) = Forgot.code st ->
                     forgotSentInv (absorb hist fl r)).
    { intros Hreq Hsame. split; [cbn; now rewrite Hsame|]. split.
      - intros e0 c Hin. apply sent_absorb in Hin as [Hin | Hin];
          [now apply Hverify with e0 | now rewrite Hreq in Hin].
      - intros e0 c p Hin. apply sent_absorb in Hin as [Hin | Hin];
          [| now rewrite Hreq in Hin].
        destruct (Hreset _ _ _ Hin) as [Hv Hp].
        split; [now apply verified_absorb | exact Hp]. }
    unfold Forgot.fire in Hfire.
    destruct e;
      match type of Hfire with
      | (if ?b then _ else _) = _ => destruct b eqn:Hguard; [|discriminate]
      end;
      injection Hfire as <-; bool_facts;
      try (apply Hquiet; reflexivity).
    + (* submitting the email *)
      split; [exact Hcode|]. split.
      * intros e0 c Hin. apply sent_absorb in Hin as [Hin | [Hin | []]];
          [now apply Hverify with e0 | discriminate].
      * intros e0 c p Hin. apply sent_absorb in Hin as [Hin | [Hin | []]];
          [|discriminate].
        destruct (Hreset _ _ _ Hin) as [Hv Hp].
        split; [now apply verified_absorb | exact Hp].
    + (* typing the code *)
      split; [cbn; now apply Nat.leb_le|]. split.
      * intros e0 c Hin. apply sent_absorb in Hin as [Hin | []].
        now apply Hverify with e0.
      * intros e0 c p Hin. apply sent_absorb in Hin as [Hin | []].
        destruct (Hreset _ _ _ Hin) as [Hv Hp].
        split; [now apply verified_absorb | exact Hp].
    + (* submitting the code *)
      split; [exact Hcode|]. split.
      * intros e0 c Hin. apply sent_absorb in Hin as [Hin | [Hin | []]];
          [now apply Hverify with e0|].
        injection Hin as _ <-. split; [|exact Hcode].
        match goal with H : (_ =? "") = false |- _ =>
                          apply String.eqb_neq in H; exact H end.
      * intros e0 c p Hin. apply sent_absorb in Hin as [Hin | [Hin | []]];
          [|discriminate].
        destruct (Hreset _ _ _ Hin) as [Hv Hp].
        split; [now apply verified_absorb | exact Hp].
    + (* submitting the new password *)
      unfold Forgot.handleResetPassword in *.
      destruct (negb (Forgot.newPassword st =? Forgot.confirmPassword st));
        [apply Hquiet; reflexivity|].
      destruct (Nat.ltb_spec (String.length (Forgot.newPassword st)) 4)
        as [Hshort | Hlong]; [apply Hquiet; reflexivity|].
      clear Hquiet. split; [exact Hcode|]. split.
      * intros e0 c Hin. apply sent_absorb in Hin as [Hin | [Hin | []]];
          [now apply Hverify with e0 | discriminate].
      * intros e0 c p Hin. apply sent_absorb in Hin as [Hin | [Hin | []]].
        -- destruct (Hreset _ _ _ Hin) as [Hv Hp].
           split; [now apply verified_absorb | exact Hp].
        -- injection Hin as _ _ <-.
           split; [apply verified_absorb; now apply Hver | exact Hlong].
  - destruct fl as [|t0 [|t' fl]]; [destruct n; discriminate | | contradiction].
    destruct n as [|n]; [|destruct n; discriminate].
    cbn in Hnext. injection Hnext as <-.
    assert (Hquiet : forall r : Reaction Forgot.State,
               requestsOf r = [] ->
               Forgot.code (stateOf r) = Forgot.code st ->
               forgotSentInv (absorb (hist ++ [Got (callOf t0) o]) [] r)).
    { intros r Hreq Hsame. split; [cbn; now rewrite Hsame|]. split.
      - intros e0 c Hin. apply sent_absorb in Hin as [Hin | Hin];
          [| now rewrite Hreq in Hin].
        apply in_app_iff in Hin as [Hin | [Hin | []]];
          [now apply Hverify with e0 | discriminate].
      - intros e0 c p Hin. apply sent_absorb in Hin as [Hin | Hin];
          [| now rewrite Hreq in Hin].
        apply in_app_iff in Hin as [Hin | [Hin | []]]; [|discriminate].
        destruct (Hreset _ _ _ Hin) as [Hv Hp].
        split; [now apply verified_got_absorb | exact Hp]. }
    destruct Hfl as [Hl [(em & -> & Hs) | [(em & c & -> & Hs)
                                           | (em & c & p & -> & Hs)]]];
      destruct o as [d | response]; apply Hquiet; reflexivity.
Qed.

Lemma forgotSentInv_reachable (cfg : Config Forgot.State) :
  reachable Forgot.fire forgotStart cfg -> forgotSentInv cfg.
Proof.
  apply reachable_ind.
  - split; [cbn; lia|]. split; [intros e c [] | intros e c p []].
  - intros c i c' Hreach Hinv Hnext.
    apply (forgotSentInv_next c c' i); try assumption.
    now apply forgotInv_reachable.
Qed.

(** X15.  On the reset page at most one request is in flight and
    [loading] is true exactly while one is.  A reset-password call is sent
    only after a verification call has resolved successfully, and its new
    password has at least 4 characters; every verification call carries a
    code that is not empty and has at most 6 characters. *)
Theorem reset_page_requests (cfg : Config Forgot.State) :
  reachable Forgot.fire forgotStart cfg ->
  List.length (inflight cfg) <= 1
  /\ (Forgot.loading (store cfg) = true <-> inflight cfg <> [])
  /\ (forall e c p,
        In (Sent (resetPasswordWithCode e c p)) (history cfg) ->
        verified (history cfg) /\ 4 <= String.length p)
  /\ (forall e c,
        In (Sent (verifyResetCode e c)) (history cfg) ->
        c <> "" /\ String.length c <= 6).
Proof.
  intros Hreach.
  pose proof (forgotInv_reachable cfg Hreach) as [_ Hfl].
  pose proof (forgotSentInv_reachable cfg Hreach) as (_ & Hverify & Hreset).
  split; [|split; [|split; assumption]];
    destruct (inflight cfg) as [|t [|t' fl]]; try contradiction; cbn.
  - lia.
  - lia.
  - destruct Hfl as [-> _]. split; [discriminate | intros H; now elim H].
  - destruct Hfl as [-> _]. split; [discriminate | reflexivity].
Qed.

Lemma reset_page_requests_witness :
  exists cfg,
    run Forgot.fire forgotStart resetSession = Some cfg
    /\ In (Sent (resetPasswordWithCode "a@b.c" "123456" "abcd")) (history cfg)
    /\ verified (history cfg).
Proof.
  eexists. split; [vm_compute; reflexivity|]. split; [simpl; tauto|].
  refine (proj1 (proj1 (proj2 (proj2 (reset_page_requests _ _)))
                   "a@b.c" "123456" "abcd" _)).
  - exists resetSession. vm_compute. reflexivity.
  - simpl. tauto.
Defined.

(** ** More on the user-management page *)

Lemma wardenSeen_absorb {S} (hist : list Event) (rest : list (Task S))
  (r : Reaction S) :
  wardenSeen hist -> wardenSeen (history (absorb hist rest r)).
Proof.
  intros (d & Hin & Hrole). exists d. split; [now apply got_absorb | exact Hrole].
Qed.

Lemma wardenSeen_app (hist more : list Event) :
  wardenSeen hist -> wardenSeen (hist ++ more).
Proof.
  intros (d & Hin & Hrole). exists d. split; [|exact Hrole].
  apply in_app_iff. now left.
Qed.

Lemma usersInv_sent (cfg : Config Users.State) (c : Call) :
  usersInv cfg -> In (Sent c) (history cfg) ->
  c = getCurrentUser \/ wardenSeen (history cfg) \/ inflight cfg = [].
Proof.
  intros [(_ & _ & _ & Hhist) | [(Hfl & _) | (_ & d & Hrole & Hgot & _)]] Hin.
  - rewrite Hhist in Hin. destruct Hin as [H | []]. injection H as <-. now left.
  - right; right. exact Hfl.
  - right; left. now exists d.
Qed.

Lemma usersGateInv_next (cfg cfg' : Config Users.State) (i : Input Users.UI) :
  usersInv cfg' -> usersGateInv cfg -> next Users.fire cfg i = Some cfg' ->
  usersGateInv cfg'.
Proof.
  intros Hinv' Hgate Hnext c Hin.
  destruct (usersInv_sent cfg' c Hinv' Hin) as [H | [H | Hnone]];
    [now left | now right |].
  destruct i as [e | n o]; cbn in Hnext.
  - destruct (Users.fire e (store cfg)) as [r|] eqn:Hfire; [|discriminate].
    injection Hnext as <-. cbn in Hnone.
    apply app_eq_nil in Hnone as [_ Hsp].
    apply sent_absorb in Hin as [Hin | Hin].
    + destruct (Hgate c Hin) as [H | H]; [now left | right].
      now apply wardenSeen_absorb.
    + unfold requestsOf in Hin. rewrite Hsp in Hin. contradiction.
  - destruct (nth_error (inflight cfg) n) as [t|] eqn:Hnth; [|discriminate].
    injection Hnext as <-. cbn in Hnone.
    apply app_eq_nil in Hnone as [_ Hsp].
    apply sent_absorb in Hin as [Hin | Hin].
    + apply in_app_iff in Hin as [Hin | [Hin | []]]; [|discriminate].
      destruct (Hgate c Hin) as [H | H]; [now left | right].
      now apply wardenSeen_absorb, wardenSeen_app.
    + unfold requestsOf in Hin. rewrite Hsp in Hin. contradiction.
Qed.

Lemma usersGateInv_reachable (cfg : Config Users.State) :
  reachable Users.fire usersStart cfg -> usersGateInv cfg.
Proof.
  apply reachable_ind.
  - intros c [H | []]. injection H as <-. now left.
  - intros c i c' Hreach Hgate Hnext.
    apply (usersGateInv_next c c' i); try assumption.
    apply usersInv_reachable. now apply reachable_next with c i.
Qed.

(** X16.  On the user-management page every request other than the
    identity fetch - the user list, every role update, every delete - is
    sent only after the identity fetch came back with role ['Warden']: a
    user who is not a Warden cannot make this page write anything. *)
Theorem users_requests_are_gated (cfg : Config Users.State) (c : Call) :
  reachable Users.fire usersStart cfg ->
  In (Sent c) (history cfg) ->
  c = getCurrentUser \/ wardenSeen (history cfg).
Proof.
  intros Hreach. now apply usersGateInv_reachable.
Qed.

Lemma users_requests_are_gated_witness :
  exists cfg,
    run Users.fire usersStart usersSession = Some cfg
    /\ In (Sent (deleteUser (JNum 2))) (history cfg)
    /\ wardenSeen (history cfg).
Proof.
  eexists. split; [vm_compute; reflexivity|].
  assert (Hin : In (Sent (deleteUser (JNum 2)))
                   [Sent getCurrentUser;
                    Got getCurrentUser
                      (Resolved (JObj [("id", JNum 1); ("role", JStr "Warden")]));
                    Sent listUsers;
                    Got listUsers
                      (Resolved
                         (JArr [JObj [("id", JNum 1); ("role", JStr "Warden")];
                                JObj [("id", JNum 2); ("role", JStr "Pending")]]));
                    Did (EConfirm (MVal (JStr
                      "Are you sure you want to delete this user? This action cannot be undone.")));
                    Sent (deleteUser (JNum 2))])
    by (simpl; tauto).
  split; [exact Hin|].
  destruct (users_requests_are_gated _ (deleteUser (JNum 2))
              (ex_intro _ usersSession eq_refl) Hin) as [H | H];
    [discriminate H | exact H].
Defined.

Lemma renderRows_targets (current : JsVal) (us : list JsVal) :
  forall rows, Users.renderRows current us = Some rows ->
    Forall (fun cells =>
              (forall v t, fst cells = Users.RoleSelect v t ->
                           strictEq t (optProp current "id") = false)
              /\ (forall t, snd cells = Users.DeleteButton t ->
                            strictEq t (optProp current "id") = false))
           rows.
Proof.
  intros rows Hrows. apply renderRows_Forall2 in Hrows.
  induction Hrows as [|u cells us' rows' Hrow _ IH]; constructor; [|exact IH].
  apply renderRow_cells in Hrow as (uid & role & _ & _ & ->).
  destruct (strictEq uid (optProp current "id")) eqn:E; cbn; split;
    intros; try discriminate; congruence.
Qed.

Lemma table_targets (st : Users.State) (row : nat)
  (cells : Users.RoleCell * Users.ActionCell) :
  nth_error (Users.table st) row = Some cells ->
  (forall v t, fst cells = Users.RoleSelect v t ->
               strictEq t (optProp (Users.user st) "id") = false)
  /\ (forall t, snd cells = Users.DeleteButton t ->
                strictEq t (optProp (Users.user st) "id") = false).
Proof.
  unfold Users.table. intros Hnth.
  destruct (Users.loading st); [destruct row; discriminate|].
  destruct (Users.allUsers st) as [| | | | |us|];
    try (destruct row; discriminate).
  destruct (Users.renderRows (Users.user st) us) as [rows|] eqn:Hrows;
    [|destruct row; discriminate].
  apply renderRows_targets in Hrows.
  exact (Forall_nth_error _ _ _ _ Hrows Hnth).
Qed.

(** X17.  Through the controls the table renders, the current user can
    never aim a role change or a delete at their own account: whatever
    control is fired, the id in the request it issues is not the current
    user's id. *)
Theorem ui_never_targets_self (e : Users.UI) (st : Users.State)
  (r : Reaction Users.State) (c : Call) (id : JsVal) :
  Users.fire e st = Some r ->
  In c (requestsOf r) -> targetOf c = Some id ->
  strictEq id (optProp (Users.user st) "id") = false.
Proof.
  destruct e as [|row newRole|row confirmed]; cbn.
  - destruct (Users.loading st); [discriminate|].
    intros H; injection H as <-. intros [].
  - destruct (nth_error (Users.table st) row) as [[rc ac]|] eqn:Hnth;
      [|discriminate].
    destruct (table_targets st row _ Hnth) as [Hsel _].
    destruct rc as [role|value target]; [discriminate|].
    match goal with
    | |- (if ?b then _ else _) = _ -> _ => destruct b; [|discriminate]
    end.
    intros H; injection H as <-. cbn. intros [<- | []] Ht.
    injection Ht as <-. now apply (Hsel value).
  - destruct (nth_error (Users.table st) row) as [[rc ac]|] eqn:Hnth;
      [|discriminate].
    destruct (table_targets st row _ Hnth) as [_ Hdel].
    destruct ac as [target|]; [|discriminate].
    intros H; injection H as <-. destruct confirmed; cbn; [|intros []].
    intros [<- | []] Ht. injection Ht as <-. now apply Hdel.
Qed.

Lemma ui_never_targets_self_witness :
  let warden := JObj [("id", JNum 1); ("role", JStr "Warden")] in
  let staff := JObj [("id", JNum 2); ("role", JStr "Pending")] in
  let st := Users.mkState warden false (JArr [warden; staff]) in
  Users.fire (Users.ClickDelete 1 true) st
  = Some (Users.handleDeleteUser (JNum 2) true st)
  /\ strictEq (JNum 2) (optProp (Users.user st) "id") = false.
Proof.
  intros warden staff st. split; [reflexivity|].
  apply (ui_never_targets_self (Users.ClickDelete 1 true) st
           (Users.handleDeleteUser (JNum 2) true st) (deleteUser (JNum 2)));
    [reflexivity | simpl; tauto | reflexivity].
Defined.

(** X18.  The table of users is never patched in place: along any run of
    the page, the stored user list changes only at the moment a user-list
    request resolves, and then becomes the body of that response. *)
Theorem users_list_changes_only_on_fetch (cfg cfg' : Config Users.State)
  (i : Input Users.UI) :
  reachable Users.fire usersStart cfg ->
  next Users.fire cfg i = Some cfg' ->
  Users.allUsers (store cfg') <> Users.allUsers (store cfg) ->
  exists n d,
    i = Settle n (Resolved d)
    /\ option_map (@callOf _) (nth_error (inflight cfg) n) = Some listUsers
    /\ Users.allUsers (store cfg') = d.
Proof.
  intros Hreach Hnext Hchange. apply usersInv_reachable in Hreach.
  destruct i as [e | n o]; cbn in Hnext.
  - destruct (Users.fire e (store cfg)) as [r|] eqn:Hfire; [|discriminate].
    injection Hnext as <-. exfalso. apply Hchange.
    destruct e as [|row newRole|row confirmed]; cbn in Hfire.
    + destruct (Users.loading (store cfg)); [discriminate|].
      now injection Hfire as <-.
    + destruct (nth_error (Users.table (store cfg)) row)
        as [[[role|value target] ac]|]; try discriminate.
      match type of Hfire with
      | (if ?b then _ else _) = _ => destruct b; [|discriminate]
      end.
      now injection Hfire as <-.
    + destruct (nth_error (Users.table (store cfg)) row)
        as [[rc [target|]]|]; try discriminate.
      now injection Hfire as <-.
  - destruct (nth_error (inflight cfg) n) as [t|] eqn:Hnth; [|discriminate].
    injection Hnext as <-.
    assert (Ht : t = Users.fetchCurrentUser \/ usersTask t).
    { destruct Hreach as [(Hfl & _) | [(Hfl & _) | (Htasks & _)]].
      - rewrite Hfl in Hnth. destruct n as [|n]; [|destruct n; discriminate].
        left. cbn in Hnth. congruence.
      - rewrite Hfl in Hnth. destruct n; discriminate.
      - right. exact (Forall_nth_error _ _ _ _ Htasks Hnth). }
    destruct Ht as [-> | [-> | [(id & data & ->) | (id & ->)]]];
      destruct o as [d | response];
      try (exfalso; apply Hchange; reflexivity).
    + exfalso. apply Hchange. cbn.
      destruct (prop d "role") as [role|]; [|reflexivity].
      destruct (strictEq role (JStr "Warden")); reflexivity.
    + exists n, d. split; [reflexivity|]. split; [|reflexivity].
      now rewrite Hnth.
Qed.

Lemma users_list_changes_only_on_fetch_witness :
  exists cfg cfg',
    run Users.fire usersStart [Settle 0 (Resolved
          (JObj [("id", JNum 1); ("role", JStr "Warden")]))] = Some cfg
    /\ next Users.fire cfg (Settle 0 (Resolved (JArr [JNum 0]))) = Some cfg'
    /\ exists n d,
        @Settle Users.UI 0 (Resolved (JArr [JNum 0])) = Settle n (Resolved d)
        /\ option_map (@callOf _) (nth_error (inflight cfg) n) = Some listUsers
        /\ Users.allUsers (store cfg') = d.
Proof.
  eexists; eexists.
  split; [vm_compute; reflexivity|]. split; [vm_compute; reflexivity|].
  eapply users_list_changes_only_on_fetch.
  - exists [Settle 0 (Resolved (JObj [("id", JNum 1); ("role", JStr "Warden")]))].
    vm_compute. reflexivity.
  - vm_compute. reflexivity.
  - vm_compute. discriminate.
Defined.

(** ** The dashboard *)

Lemma showsWardenTools_role (st : Dashboard.State) :
  showsWardenTools st = true ->
  prop (Dashboard.user st) "role" = Some (JStr "Warden").
Proof.
  unfold showsWardenTools, optProp. intros H. apply strictEq_str in H.
  destruct (prop (Dashboard.user st) "role"); [congruence | discriminate].
Qed.

Lemma dashboard_tools_seen (st : Dashboard.State) (hist : list Event) :
  (Dashboard.user st = JNull
   \/ In (Got getCurrentUser (Resolved (Dashboard.user st))) hist) ->
  showsWardenTools st = true -> wardenSeen hist.
Proof.
  intros Huser Hshow. apply showsWardenTools_role in Hshow.
  destruct Huser as [Hnull | Hgot].
  - rewrite Hnull in Hshow. discriminate.
  - now exists (Dashboard.user st).
Qed.

Lemma dashboardInv_next (cfg cfg' : Config Dashboard.State)
  (i : Input DashboardPage.UI) :
  dashboardInv cfg -> next DashboardPage.fire cfg i = Some cfg' ->
  dashboardInv cfg'.
Proof.
  intros (Huser & Htasks & Hnav & Hrem) Hnext.
  destruct cfg as [st fl hist]; cbn [store inflight history] in *.
  destruct i as [e | n o]; cbn in Hnext.
  - unfold DashboardPage.fire in Hnext.
    destruct (Dashboard.loading st); [discriminate|].
    destruct e as [|path].
    + injection Hnext as <-. split; [|split; [|split]].
      * destruct Huser as [H | H]; [now left | right]. now apply got_absorb.
      * cbn. apply Forall_app. split; [exact Htasks|].
        constructor; [now right; right | constructor].
      * intros Hin. apply did_absorb in Hin as [Hin | []].
        now apply wardenSeen_absorb, Hnav.
      * intros Hin. apply did_absorb in Hin as [Hin | []].
        destruct (Hrem Hin) as (d & Hd). exists d. now apply got_absorb.
    + destruct (existsb (String.eqb path) (DashboardPage.navTargets st))
        eqn:Hpath; [|discriminate].
      injection Hnext as <-. split; [|split; [|split]].
      * destruct Huser as [H | H]; [now left | right]. now apply got_absorb.
      * cbn. rewrite app_nil_r. exact Htasks.
      * intros Hin. apply wardenSeen_absorb.
        apply did_absorb in Hin as [Hin | [Hin | []]]; [now apply Hnav|].
        injection Hin as ->. apply dashboard_tools_seen with st; [exact Huser|].
        unfold DashboardPage.navTargets in Hpath.
        destruct (showsWardenTools st); [reflexivity | discriminate Hpath].
      * intros Hin. apply did_absorb in Hin as [Hin | [Hin | []]];
          [|discriminate].
        destruct (Hrem Hin) as (d & Hd). exists d. now apply got_absorb.
  - destruct (nth_error fl n) as [t|] eqn:Hnth; [|discriminate].
    injection Hnext as <-.
    pose proof (Forall_nth_error _ _ _ _ Htasks Hnth) as Ht.
    pose proof (Forall_dropNth _ _ Htasks n) as Hrest.
    assert (Hnav' : forall r : Reaction Dashboard.State,
               ~ In (ENavigate "/user-management") (effectsOf r) ->
               In (Did (ENavigate "/user-management"))
                  (history (absorb (hist ++ [Got (callOf t) o])
                                   (dropNth n fl) r)) ->
               wardenSeen (history (absorb (hist ++ [Got (callOf t) o])
                                           (dropNth n fl) r))).
    { intros r Hno Hin. apply wardenSeen_absorb, wardenSeen_app, Hnav.
      apply did_absorb in Hin as [Hin | Hin]; [|contradiction].
      apply in_app_iff in Hin as [Hin | [Hin | []]];
        [exact Hin | discriminate]. }
    assert (Hrem' : forall r : Reaction Dashboard.State,
               (In (ERemoveItem "user") (effectsOf r) ->
                exists d, t = Await logout Dashboard.handleLogout_k
                          /\ o = Resolved d) ->
               In (Did (ERemoveItem "user"))
                  (history (absorb (hist ++ [Got (callOf t) o])
                                   (dropNth n fl) r)) ->
               exists d, In (Got logout (Resolved d))
                            (history (absorb (hist ++ [Got (callOf t) o])
                                             (dropNth n fl) r))).
    { intros r Hcase Hin. apply did_absorb in Hin as [Hin | Hin].
      - apply in_app_iff in Hin as [Hin | [Hin | []]]; [|discriminate].
        destruct (Hrem Hin) as (d & Hd). exists d.
        apply got_absorb, in_app_iff. now left.
      - destruct (Hcase Hin) as (d & -> & ->). exists d.
        apply got_absorb, in_app_iff. right. now left. }
    assert (Hkeep : forall r : Reaction Dashboard.State,
               Dashboard.user (stateOf r) = Dashboard.user st ->
               Dashboard.user (stateOf r) = JNull
               \/ In (Got getCurrentUser (Resolved (Dashboard.user (stateOf r))))
                     (history (absorb (hist ++ [Got (callOf t) o])
                                      (dropNth n fl) r))).
    { intros r ->. destruct Huser as [H | H]; [now left | right].
      apply got_absorb, in_app_iff. now left. }
    destruct Ht as [-> | [-> | ->]]; destruct o as [d | response];
      (split; [|split; [|split]]);
      try (apply Hkeep; reflexivity);
      try (cbn; rewrite app_nil_r; exact Hrest);
      try (apply Hnav'; cbn;
           try destruct (authFailure response); cbn;
           intros H; repeat (destruct H as [H | H]; try discriminate);
           exact H);
      try (apply Hrem'; cbn;
           try destruct (authFailure response); cbn;
           intros H; repeat (destruct H as [H | H]; try discriminate);
           try contradiction).
    + right. apply got_absorb, in_app_iff. right. now left.
    + now exists d.
Qed.

Lemma dashboardInv_reachable (cfg : Config Dashboard.State) :
  reachable DashboardPage.fire dashboardStart cfg -> dashboardInv cfg.
Proof.
  apply reachable_ind.
  - split; [now left|]. split.
    + constructor; [now left|]. constructor; [right; now left | constructor].
    + split; intros H; cbn in H;
        repeat (destruct H as [H | H]; try discriminate); contradiction.
  - intros c i c' _ Hinv Hnext. exact (dashboardInv_next c c' i Hinv Hnext).
Qed.

(** X19.  On the dashboard the Warden-only elements are on screen only
    after the identity fetch came back with role ['Warden'], and only then
    can the page navigate to user management; the stored user snapshot is
    removed only after a logout call has resolved. *)
Theorem dashboard_gate (cfg : Config Dashboard.State) :
  reachable DashboardPage.fire dashboardStart cfg ->
  (showsWardenTools (store cfg) = true -> wardenSeen (history cfg))
  /\ (In (Did (ENavigate "/user-management")) (history cfg) ->
      wardenSeen (history cfg))
  /\ (In (Did (ERemoveItem "user")) (history cfg) ->
      exists d, In (Got logout (Resolved d)) (history cfg)).
Proof.
  intros Hreach. apply dashboardInv_reachable in Hreach.
  destruct Hreach as (Huser & _ & Hnav & Hrem).
  split; [|split; assumption].
  now apply dashboard_tools_seen.
Qed.

Lemma dashboard_gate_witness :
  exists cfg,
    run DashboardPage.fire dashboardStart dashboardSession = Some cfg
    /\ showsWardenTools (store cfg) = true
    /\ wardenSeen (history cfg).
Proof.
  eexists. split; [vm_compute; reflexivity|]. split; [reflexivity|].
  refine (proj1 (dashboard_gate _ _) _).
  - exists dashboardSession. vm_compute. reflexivity.
  - reflexivity.
Defined.

Lemma request_shape_witness :
  idOf (deleteRoom (JNum 5)) = Some (JNum 5)
  /\ Api.body (Api.request logout) = None.
Proof.
  split.
  - apply (proj1 (proj2 (proj2 (request_shape (deleteRoom (JNum 5)))))).
    simpl. tauto.
  - apply (proj1 (proj2 (proj2 (proj2 (request_shape logout))))).
    right; right. reflexivity.
Defined.
